(** * Reflexible VS Code extension: the session orchestrator

    A shallow embedding of the code that dispatches an agent session,
    follows its server-sent event stream, downloads the produced
    artifacts and tears the ephemeral project down:

    - [src/api.ts]                   ([getApiKey], [ensureApiKey], [apiFetch])
    - [src/project-manager.ts]       ([getEphemeralProject], [cleanupEphemeralProject])
    - [src/file-manager.ts]          ([uploadWorkspaceFiles], [downloadArtifacts])
    - [src/project-tree-provider.ts] ([startAISession], [monitorSession])

    JavaScript strings are sequences of UTF-16 code units, JSON values an
    inductive type, the extension host (secret store, workspace state,
    remote service, user interface, file system) an explicit [World]
    threaded through a state-and-exception monad.  Built-ins whose
    behaviour is fixed by the language standard rather than by this
    repository ([JSON.parse], [TextDecoder], [toLowerCase], ...) are the
    fields of the class [JsRuntime]. *)

From Stdlib Require Import NArith List Ascii String DecimalString Lia Bool.
From stdpp Require Import base list strings gmap.

Set Default Proof Using "Type".
#[local] Set Warnings "-register-all".
Local Open Scope N_scope.
Local Open Scope list_scope.

(* ================================================================= *)
(** ** JavaScript strings *)

Module JsString.

(** A UTF-16 code unit. *)
Abbreviation char := N (only parsing).

(** A string value. *)
Abbreviation jsstring := (list N) (only parsing).

(** A literal of the source, written as a Rocq string. *)
Definition str (s : string) : jsstring := N_of_ascii <$> list_ascii_of_string s.

Definition LF : char := 10.

Definition eqb (s t : jsstring) : bool := bool_decide (s = t).

(** [s.startsWith(p)] *)
Fixpoint startsWith (s p : jsstring) {struct p} : bool :=
  match p, s with
  | [], _ => true
  | _ :: _, [] => false
  | c :: p', d :: s' => (c =? d) && startsWith s' p'
  end.

(** [s.endsWith(p)] *)
Definition endsWith (s p : jsstring) : bool := startsWith (rev s) (rev p).

(** [s.includes(p)] *)
Fixpoint includes (s p : jsstring) : bool :=
  startsWith s p ||
  match s with
  | [] => false
  | _ :: s' => includes s' p
  end.

(** [s.slice(n)] for [0 <= n] *)
Definition slice (n : nat) (s : jsstring) : jsstring := drop n s.

(** [s.substring(0, n)] *)
Definition substring0 (n : nat) (s : jsstring) : jsstring := take n s.

(** The code units [String.prototype.trim] strips: WhiteSpace and
    LineTerminator of ECMA-262. *)
Definition isWhiteSpace (c : char) : bool :=
  (9 <=? c) && (c <=? 13) || (c =? 32) || (c =? 160) || (c =? 5760) ||
  (8192 <=? c) && (c <=? 8202) || (c =? 8232) || (c =? 8233) ||
  (c =? 8239) || (c =? 8287) || (c =? 12288) || (c =? 65279).

Fixpoint trimStart (s : jsstring) : jsstring :=
  match s with
  | c :: s' => if isWhiteSpace c then trimStart s' else s
  | [] => []
  end.

(** [s.trim()] *)
Definition trim (s : jsstring) : jsstring := rev (trimStart (rev (trimStart s))).

(** The scan behind [s.split(sep)] for a non-empty [sep]: the head of the
    result is the segment being read; at a position where [sep] starts the
    segment is closed and the [length sep - 1] following code units are
    skipped. *)
Fixpoint split_from (sep : jsstring) (skip : nat) (s : jsstring) : list jsstring :=
  match s with
  | [] => [[]]
  | c :: s' =>
      match skip with
      | S k => split_from sep k s'
      | O =>
          if startsWith s sep
          then [] :: split_from sep (length sep - 1) s'
          else match split_from sep 0 s' with
               | seg :: segs => (c :: seg) :: segs
               | [] => [[c]]
               end
      end
  end.

(** [s.split(sep)]; with the empty separator the string falls apart into
    its code units. *)
Definition split (s sep : jsstring) : list jsstring :=
  match sep with
  | [] => (fun c => [c]) <$> s
  | _ :: _ => split_from sep 0 s
  end.

(** [s.replace(/^prefix/, '')] for a literal [prefix]. *)
Definition stripPrefix (prefix s : jsstring) : jsstring :=
  if startsWith s prefix then drop (length prefix) s else s.

(** A non-negative integer in decimal, as [String(n)] and template
    literals print it. *)
Definition ofN (n : N) : jsstring := str (NilEmpty.string_of_uint (N.to_uint n)).

End JsString.
Import JsString.


(* ================================================================= *)
(** ** JSON values and the built-ins of the runtime *)

(** What [JSON.parse] returns, and [undefined].  A number keeps the text
    it was written with; an object keeps its members in source order. *)
Inductive JValue :=
| JUndefined
| JNull
| JBool (b : bool)
| JNum (lexeme : jsstring)
| JStr (s : jsstring)
| JArr (items : list JValue)
| JObj (members : list (jsstring * JValue)).

(** A thrown value: every exception of the modelled code is an [Error]
    object or one of its built-in subclasses. *)
Record Exn := mkExn { exn_name : jsstring; exn_message : jsstring }.

(** [new Error(msg)] *)
Definition Error (msg : jsstring) : Exn := mkExn (str "Error") msg.
Definition TypeError (msg : jsstring) : Exn := mkExn (str "TypeError") msg.
Definition SyntaxError (msg : jsstring) : Exn := mkExn (str "SyntaxError") msg.

(** [String(e)], that is [Error.prototype.toString]. *)
Definition Exn_toString (e : Exn) : jsstring :=
  match exn_name e, exn_message e with
  | n, [] => n
  | [], m => m
  | n, m => n ++ str ": " ++ m
  end.

(** The built-ins the code calls.  Their behaviour is that of the
    JavaScript engine and of Node, not of this repository. *)
Class JsRuntime := {
  (** [JSON.parse(text)]; [None] when it throws a [SyntaxError] *)
  JSON_parse : jsstring -> option JValue;
  (** the message of that [SyntaxError] *)
  JSON_parse_message : jsstring -> jsstring;
  (** [JSON.stringify(value)] *)
  JSON_stringify : JValue -> jsstring;
  (** whether a JSON number denotes zero *)
  Number_isZero : jsstring -> bool;
  (** [String(n)] for the number a JSON lexeme denotes *)
  Number_toString : jsstring -> jsstring;
  (** [s.toLowerCase()] *)
  toLowerCase : jsstring -> jsstring;
  (** [encodeURIComponent(s)] *)
  encodeURIComponent : jsstring -> jsstring;
  (** the bytes a [TextDecoder] holds back between two calls *)
  DecoderState : Type;
  (** [new TextDecoder()] *)
  TextDecoder_new : DecoderState;
  (** [decoder.decode(value, { stream: true })] *)
  TextDecoder_decode : DecoderState -> list Byte.byte -> jsstring * DecoderState;
  (** whether [Buffer.from(value, 'utf-8')] accepts an array or object *)
  Buffer_accepts : JValue -> bool;
}.

(** The destination of a write: a [vscode.Uri] built by [Uri.joinPath],
    kept as the expression that built it. *)
Inductive Uri :=
| UriOf (location : jsstring)
| joinPath (base : Uri) (segment : jsstring).

(** The content of a write, kept as the call that built it. *)
Inductive Buffer :=
| Buffer_from (value : JValue) (encoding : jsstring).

(* ================================================================= *)
(** ** The extension host *)

(** How a response body stream ends. *)
Inductive StreamEnd :=
| Closed
| Broken (e : Exn).

(** The body of a streaming response: what successive [reader.read()]
    calls deliver. *)
Record Stream := mkStream { chunks : list (list Byte.byte); ending : StreamEnd }.

Record Response := mkResponse {
  res_status : N;
  res_text : jsstring;            (** what [res.text()] resolves to *)
  res_body : option Stream;       (** [res.body] *)
}.

(** The outcome of one [fetch]. *)
Inductive FetchResult :=
| NetworkError (e : Exn)
| Responds (r : Response).

(** What the user does with a prompt. *)
Inductive Answer :=
| Typed (text : jsstring)
| Picked (index : nat)
| Dismissed.

(** What the code does to its surroundings, in the order it does it. *)
Inductive Effect :=
| Fetch (url : jsstring) (method : option jsstring)
        (headers : list (jsstring * jsstring)) (body : option jsstring)
| ConsoleError (text : jsstring)
| ShowErrorMessage (message : jsstring) (items : list jsstring)
| ShowInformationMessage (message : jsstring)
| OpenExternal (url : jsstring)
| ShowInputBox (prompt : jsstring)
| ShowQuickPick (labels : list jsstring)
| ProgressReport (message : JValue)
| AppendLine (line : jsstring)
| AddMessage (role : jsstring) (content : jsstring)
| SetSession (sessionId : JValue)
| CreateDirectory (uri : Uri)
| WriteFile (uri : Uri) (content : Buffer).

Record World := mkWorld {
  secrets : gmap string jsstring;        (** [context.secrets] *)
  workspaceState : gmap string JValue;   (** [context.workspaceState] *)
  baseUrl : jsstring;                    (** [Config.baseUrl] *)
  workspaceFolders : list Uri;           (** [vscode.workspace.workspaceFolders] *)
  rfxFiles : list (jsstring * jsstring); (** the workspace's [.rfx] files: relative path, text *)
  remote : list FetchResult;             (** what the network answers, fetch by fetch *)
  answers : list Answer;                 (** what the user answers, prompt by prompt *)
  reads : nat;                           (** [reader.read()] calls issued so far *)
  log : list Effect;                     (** the effects so far, oldest first *)
}.

(** [token.isCancellationRequested]: once set it stays set, so a token is
    the number of reads that complete before the request is seen. *)
Record CancellationToken := mkToken { cancelledFrom : option nat }.

Definition isCancellationRequested (token : CancellationToken) (readsDone : nat) : bool :=
  match cancelledFrom token with
  | Some k => bool_decide (k <= readsDone)%nat
  | None => false
  end.

(* ================================================================= *)
(** ** Computations: state and exceptions *)

Inductive result (A : Type) :=
| Ok (a : A)
| Throw (e : Exn).
Arguments Ok {A} a.
Arguments Throw {A} e.

Definition M (A : Type) : Type := World -> result A * World.

Definition ret {A} (a : A) : M A := fun w => (Ok a, w).

Definition bind {A B} (m : M A) (k : A -> M B) : M B :=
  fun w => match m w with
           | (Ok a, w') => k a w'
           | (Throw e, w') => (Throw e, w')
           end.

(** [throw e] *)
Definition throw {A} (e : Exn) : M A := fun w => (Throw e, w).

(** [try { m } catch (e) { handler e }]: what [m] did before it threw
    stays done. *)
Definition try_catch {A} (m : M A) (handler : Exn -> M A) : M A :=
  fun w => match m w with
           | (Ok a, w') => (Ok a, w')
           | (Throw e, w') => handler e w'
           end.

(** A computation that cannot fail or touch the world. *)
Definition lift {A} (r : result A) : M A := fun w => (r, w).

Declare Scope M_scope.
Delimit Scope M_scope with M.
Notation "x ← y ; z" := (bind y (fun x => z))
  (at level 20, y at level 100, z at level 200, only parsing) : M_scope.
Notation "' x ← y ; z" := (bind y (fun x => z))
  (at level 20, x pattern, y at level 100, z at level 200, only parsing) : M_scope.
Notation "x ;; z" := (bind x (fun _ => z))
  (at level 100, z at level 200, only parsing, right associativity) : M_scope.
Local Open Scope M_scope.

Definition set_log (l : list Effect) (w : World) : World :=
  mkWorld (secrets w) (workspaceState w) (baseUrl w) (workspaceFolders w)
          (rfxFiles w) (remote w) (answers w) (reads w) l.

Definition set_secrets (s : gmap string jsstring) (w : World) : World :=
  mkWorld s (workspaceState w) (baseUrl w) (workspaceFolders w)
          (rfxFiles w) (remote w) (answers w) (reads w) (log w).

Definition set_workspaceState (s : gmap string JValue) (w : World) : World :=
  mkWorld (secrets w) s (baseUrl w) (workspaceFolders w)
          (rfxFiles w) (remote w) (answers w) (reads w) (log w).

Definition set_remote (r : list FetchResult) (w : World) : World :=
  mkWorld (secrets w) (workspaceState w) (baseUrl w) (workspaceFolders w)
          (rfxFiles w) r (answers w) (reads w) (log w).

Definition set_answers (a : list Answer) (w : World) : World :=
  mkWorld (secrets w) (workspaceState w) (baseUrl w) (workspaceFolders w)
          (rfxFiles w) (remote w) a (reads w) (log w).

Definition set_reads (n : nat) (w : World) : World :=
  mkWorld (secrets w) (workspaceState w) (baseUrl w) (workspaceFolders w)
          (rfxFiles w) (remote w) (answers w) n (log w).

(** Perform an effect. *)
Definition emit (e : Effect) : M unit :=
  fun w => (Ok tt, set_log (log w ++ [e]) w).

Definition ask {A} (f : World -> A) : M A := fun w => (Ok (f w), w).

(** The user's next answer; no answer left means the prompt is dismissed. *)
Definition nextAnswer : M Answer :=
  fun w => match answers w with
           | [] => (Ok Dismissed, w)
           | a :: rest => (Ok a, set_answers rest w)
           end.

(** Show a prompt and wait for the user. *)
Definition prompt (e : Effect) : M Answer :=
  emit e ;; nextAnswer.

(** [vscode.window.showInputBox(...)] *)
Definition showInputBox (text : jsstring) : M (option jsstring) :=
  a ← prompt (ShowInputBox text);
  ret match a with Typed s => Some s | _ => None end.

(** [vscode.window.showQuickPick(items, ...)] *)
Definition showQuickPick (labels : list jsstring) : M (option jsstring) :=
  a ← prompt (ShowQuickPick labels);
  ret match a with Picked i => labels !! i | _ => None end.

(** The network's next answer; a network with nothing left to say fails. *)
Definition nextReply : M Response :=
  fun w => match remote w with
           | [] => (Throw (TypeError (str "fetch failed")), w)
           | NetworkError e :: rest => (Throw e, set_remote rest w)
           | Responds r :: rest => (Ok r, set_remote rest w)
           end.

(** [fetch(url, init)]: the request goes out and the answer comes back. *)
Definition fetch (url : jsstring) (method : option jsstring)
    (headers : list (jsstring * jsstring)) (body : option jsstring) : M Response :=
  emit (Fetch url method headers body) ;; nextReply.

(** [res.ok] *)
Definition res_ok (r : Response) : bool :=
  (200 <=? res_status r) && (res_status r <? 300).

Section Program.
Context `{JsRuntime}.

(* ================================================================= *)
(** ** Values of type [any] *)

(** [!!v] *)
Definition truthy (v : JValue) : bool :=
  match v with
  | JUndefined | JNull => false
  | JBool b => b
  | JNum lexeme => negb (Number_isZero lexeme)
  | JStr s => negb (eqb s [])
  | JArr _ | JObj _ => true
  end.

(** [String(v)], as string concatenation and template literals apply it. *)
Fixpoint toString (v : JValue) : jsstring :=
  match v with
  | JUndefined => str "undefined"
  | JNull => str "null"
  | JBool true => str "true"
  | JBool false => str "false"
  | JNum lexeme => Number_toString lexeme
  | JStr s => s
  | JArr items =>
      let element x :=
        match x with
        | JUndefined | JNull => []
        | _ => toString x
        end in
      (fix join (l : list JValue) : jsstring :=
         match l with
         | [] => []
         | [x] => element x
         | x :: l' => element x ++ str "," ++ join l'
         end) items
  | JObj _ => str "[object Object]"
  end.

(** The member an object ends up with: the last one written under the key. *)
Definition member (key : jsstring) (members : list (jsstring * JValue)) : JValue :=
  fold_left (fun found kv => if eqb kv.1 key then kv.2 else found) members JUndefined.

Definition cannotRead (what key : jsstring) : Exn :=
  TypeError (str "Cannot read properties of " ++ what ++
             str " (reading '" ++ key ++ str "')").

(** [v.key] for the keys the code reads ([type], [message], [artifacts],
    [length], ...), none of them an array index. *)
Definition getProp (v : JValue) (key : jsstring) : result JValue :=
  match v with
  | JUndefined => Throw (cannotRead (str "undefined") key)
  | JNull => Throw (cannotRead (str "null") key)
  | JObj members => Ok (member key members)
  | JStr s =>
      Ok (if eqb key (str "length") then JNum (ofN (N.of_nat (length s))) else JUndefined)
  | JArr items =>
      Ok (if eqb key (str "length") then JNum (ofN (N.of_nat (length items))) else JUndefined)
  | JBool _ | JNum _ => Ok JUndefined
  end.

(** [v === 'literal'] *)
Definition isString (v : JValue) (literal : jsstring) : bool :=
  match v with
  | JStr s => eqb s literal
  | _ => false
  end.

(** [v.length === 0] for a truthy [v] *)
Definition lengthIsZero (v : JValue) : bool :=
  match v with
  | JStr s => bool_decide (length s = 0%nat)
  | JArr items => bool_decide (length items = 0%nat)
  | JObj members =>
      match member (str "length") members with
      | JNum lexeme => Number_isZero lexeme
      | _ => false
      end
  | _ => false
  end.

(** [v || ''] as the text that [+=] appends *)
Definition orEmpty (v : JValue) : jsstring :=
  if truthy v then toString v else [].

(** [res.json()] *)
Definition json (r : Response) : M JValue :=
  match JSON_parse (res_text r) with
  | Some v => ret v
  | None => throw (SyntaxError (JSON_parse_message (res_text r)))
  end.

(** [outputChannel.appendLine(line)] *)
Definition appendLine (line : jsstring) : M unit := emit (AppendLine line).

(** [context.workspaceState.get(key)] *)
Definition workspaceState_get (key : string) : M JValue :=
  ask (fun w => default JUndefined (workspaceState w !! key)).

(** [context.workspaceState.update(key, value)]: storing [undefined]
    removes the key. *)
Definition workspaceState_update (key : string) (value : JValue) : M unit :=
  fun w =>
    (Ok tt,
     set_workspaceState
       (match value with
        | JUndefined => delete key (workspaceState w)
        | _ => <[key := value]> (workspaceState w)
        end) w).

(* ================================================================= *)
(** ** [src/api.ts] *)

Definition apiKeySecret : string := "reflexible.apiKey".

(** [getApiKey]: [secret || undefined] *)
Definition getApiKey : M (option jsstring) :=
  ask (fun w => match secrets w !! apiKeySecret with
                | Some (c :: s) => Some (c :: s)
                | _ => None
                end).

(** [setApiKey] *)
Definition setApiKey (apiKey : jsstring) : M unit :=
  fun w => (Ok tt, set_secrets (<[apiKeySecret := apiKey]> (secrets w)) w).

(** [context.secrets.delete('reflexible.apiKey')] *)
Definition deleteApiKey : M unit :=
  fun w => (Ok tt, set_secrets (delete apiKeySecret (secrets w)) w).

(** [ensureApiKey] *)
Definition ensureApiKey : M (option jsstring) :=
  existing ← getApiKey;
  match existing with
  | Some apiKey => ret (Some apiKey)
  | None =>
      base ← ask baseUrl;
      emit (OpenExternal (base ++ str "/ext/setup")) ;;
      apiKey ← showInputBox
        (str "Log in to Reflexible, generate an API key, then paste it here");
      match apiKey with
      | Some (c :: s) => setApiKey (c :: s) ;; ret (Some (c :: s))
      | _ => ret None
      end
  end.

(** The test on the body of a 401 or 403 in [apiFetch]. *)
Definition credentialRejected (text : jsstring) : bool :=
  includes (toLowerCase text) (str "expired") ||
  includes (toLowerCase text) (str "invalid") ||
  includes (toLowerCase text) (str "unauthorized") ||
  includes (toLowerCase text) (str "access denied").

(** [apiFetch(context, path, { method, body })] *)
Definition apiFetch (path method : jsstring) (body : option jsstring) : M Response :=
  apiKey ← ensureApiKey;
  match apiKey with
  | None => throw (Error (str "Not authenticated"))
  | Some apiKey =>
      base ← ask baseUrl;
      res ← fetch (base ++ path) (Some method)
              [(str "x-api-key", apiKey); (str "content-type", str "application/json")]
              body;
      if negb (res_ok res) then
        let text := res_text res in
        let status := ofN (res_status res) in
        let errorDetails :=
          str "API Error [" ++ status ++ str "]:" ++ [LF] ++
          str "Endpoint: " ++ path ++ [LF] ++ str "Response: " ++ text in
        (if (res_status res =? 401) || (res_status res =? 403) then
           emit (ConsoleError errorDetails) ;;
           if credentialRejected text then
             deleteApiKey ;;
             emit (ShowErrorMessage
                     (str "Authentication failed (" ++ status ++ str "): " ++
                      substring0 100 text)
                     [str "Authenticate Now"; str "Details"]) ;;
             throw (Error (str "Authentication failed (" ++ status ++ str "): " ++ text))
           else ret ()
         else ret ()) ;;
        emit (ShowErrorMessage
                (str "Reflexible API Error (" ++ status ++ str "): " ++
                 substring0 200 text)
                [str "View Details"]) ;;
        throw (Error (status ++ str " " ++ text))
      else ret res
  end.

(* ================================================================= *)
(** ** [src/project-manager.ts] *)

Definition ephemeralProjectId : string := "ephemeralProjectId".

(** [getEphemeralProject] *)
Definition getEphemeralProject : M JValue :=
  projectId ← workspaceState_get ephemeralProjectId;
  if negb (truthy projectId) then
    res ← apiFetch (str "/api/v1/projects/ephemeral") (str "POST")
            (Some (JSON_stringify (JObj [(str "name", JStr (str "VSCode Session"))])));
    data ← json res;
    project ← lift (getProp data (str "project"));
    projectId ← lift (getProp project (str "id"));
    workspaceState_update ephemeralProjectId projectId ;;
    ret projectId
  else ret projectId.

(** [cleanupEphemeralProject] *)
Definition cleanupEphemeralProject (projectId : JValue) : M unit :=
  try_catch
    (appendLine (str "Cleaning up ephemeral project: " ++ toString projectId) ;;
     apiFetch (str "/api/v1/projects/" ++ toString projectId ++ str "/cleanup")
              (str "DELETE") None ;;
     workspaceState_update ephemeralProjectId JUndefined ;;
     appendLine (str "Ephemeral project cleaned up"))
    (fun e => appendLine (str "Failed to cleanup project: " ++ Exn_toString e)).

(* ================================================================= *)
(** ** [src/file-manager.ts] *)

(** [uploadWorkspaceFiles] *)
Definition uploadWorkspaceFiles (projectId : JValue) : M JValue :=
  files ← ask rfxFiles;
  if bool_decide (length files = 0%nat) then ret (JNum (ofN 0))
  else
    let entry (f : jsstring * jsstring) :=
      JObj [(str "path", JStr f.1); (str "content", JStr f.2)] in
    res ← apiFetch
            (str "/api/v1/projects/" ++ toString projectId ++ str "/files/upload-batch")
            (str "POST")
            (Some (JSON_stringify (JObj [(str "files", JArr (entry <$> files))])));
    data ← json res;
    filesUploaded ← lift (getProp data (str "filesUploaded"));
    ret (if truthy filesUploaded then filesUploaded else JNum (ofN 0)).

(** What [for (const artifact of v)] visits.  A string is iterable too;
    whatever it yields is a string. *)
Definition iterate (v : JValue) : result (list JValue) :=
  match v with
  | JArr items => Ok items
  | JStr s => Ok ((fun c => JStr [c]) <$> s)
  | _ => Throw (TypeError (str "data.artifacts is not iterable"))
  end.

(** [artifact.path.replace(/^output\//, '')] *)
Definition relativePath (path : JValue) : result jsstring :=
  match path with
  | JStr p => Ok (stripPrefix (str "output/") p)
  | JUndefined => Throw (cannotRead (str "undefined") (str "replace"))
  | JNull => Throw (cannotRead (str "null") (str "replace"))
  | _ => Throw (TypeError (str "artifact.path.replace is not a function"))
  end.

(** [Buffer.from(content, 'utf-8')] *)
Definition bufferFrom (content : JValue) : result Buffer :=
  let buffer := Buffer_from content (str "utf-8") in
  match content with
  | JStr _ => Ok buffer
  | JArr _ | JObj _ =>
      if Buffer_accepts content then Ok buffer
      else Throw (TypeError (str "The first argument must be of type string or an instance of Buffer, ArrayBuffer, or Array or an Array-like Object."))
  | _ => Throw (TypeError (str "The first argument must be of type string or an instance of Buffer, ArrayBuffer, or Array or an Array-like Object."))
  end.

(** The body of the loop over the artifacts in [downloadArtifacts]. *)
Definition writeArtifact (outputDir : Uri) (artifact : JValue) : M unit :=
  path ← lift (getProp artifact (str "path"));
  relative ← lift (relativePath path);
  let filePath := joinPath outputDir relative in
  let dirPath := joinPath filePath (str "..") in
  emit (CreateDirectory dirPath) ;;
  content ← lift (getProp artifact (str "content"));
  buffer ← lift (bufferFrom content);
  emit (WriteFile filePath buffer) ;;
  appendLine (str "Downloaded: " ++ toString path).

Fixpoint forEach {A} (body : A -> M unit) (items : list A) : M unit :=
  match items with
  | [] => ret ()
  | item :: rest => body item ;; forEach body rest
  end.

(** [downloadArtifacts]; the result is [data.artifacts.length]. *)
Definition downloadArtifacts (sessionId : JValue) : M N :=
  folders ← ask workspaceFolders;
  match folders with
  | [] =>
      emit (ShowErrorMessage
              (str "No workspace folder open - cannot download artifacts") []) ;;
      ret 0
  | folder :: _ =>
      res ← apiFetch (str "/api/v1/sessions/" ++ toString sessionId ++ str "/artifacts")
              (str "GET") None;
      data ← json res;
      artifacts ← lift (getProp data (str "artifacts"));
      if negb (truthy artifacts) || lengthIsZero artifacts then
        appendLine (str "No artifacts to download") ;;
        ret 0
      else
        let outputDir := joinPath folder (str "output") in
        emit (CreateDirectory outputDir) ;;
        items ← lift (iterate artifacts);
        forEach (writeArtifact outputDir) items ;;
        let count := N.of_nat (length items) in
        emit (ShowInformationMessage
                (str "Downloaded " ++ ofN count ++ str " artifact(s) to output/")) ;;
        ret count
  end.

(* ================================================================= *)
(** ** [src/project-tree-provider.ts]: [monitorSession] *)

(** The two ways the body of the loop over the frames ends: go on to the
    next frame with the response text so far, or [return] from [pump]. *)
Inductive Step :=
| Continue (assistantResponse : jsstring)
| Return.

(** The inner loop over the lines of a frame: the [event] and [data] it
    leaves behind. *)
Definition readLines (part : jsstring) : jsstring * jsstring :=
  fold_left
    (fun '(event, data) line =>
       (if startsWith line (str "event:") then trim (slice 6 line) else event,
        if startsWith line (str "data:") then data ++ trim (slice 5 line) else data))
    (split part [LF])
    (str "message", []).

(** The [try] block of the loop body. *)
Definition applyFrame (data assistantResponse : jsstring) : M Step :=
  match JSON_parse data with
  | None => throw (SyntaxError (JSON_parse_message data))
  | Some parsed =>
      type ← lift (getProp parsed (str "type"));
      if isString type (str "progress") then
        message ← lift (getProp parsed (str "message"));
        emit (ProgressReport message) ;;
        appendLine (str "Progress: " ++ toString message) ;;
        ret (Continue assistantResponse)
      else if isString type (str "complete") then
        (if negb (eqb assistantResponse [])
         then emit (AddMessage (str "assistant") assistantResponse)
         else ret ()) ;;
        ret Return
      else if isString type (str "content") then
        message ← lift (getProp parsed (str "message"));
        ret (Continue (assistantResponse ++ orEmpty message))
      else if isString type (str "error") then
        message ← lift (getProp parsed (str "message"));
        throw (Error (match message with JUndefined => [] | _ => toString message end))
      else ret (Continue assistantResponse)
  end.

(** One turn of [for (const part of parts)]: [try { ... } catch (e) { }]. *)
Definition handlePart (part assistantResponse : jsstring) : M Step :=
  let '(event, data) := readLines part in
  try_catch (applyFrame data assistantResponse)
            (fun _ => ret (Continue assistantResponse)).

(** [for (const part of parts) { ... }] *)
Fixpoint handleParts (parts : list jsstring) (assistantResponse : jsstring) : M Step :=
  match parts with
  | [] => ret (Continue assistantResponse)
  | part :: rest =>
      step ← handlePart part assistantResponse;
      match step with
      | Return => ret Return
      | Continue assistantResponse' => handleParts rest assistantResponse'
      end
  end.

(** The variables [pump] closes over. *)
Record PumpState := mkPump {
  buffer : jsstring;
  assistantResponse : jsstring;
  decoder : DecoderState;
}.

(** [reader.read()] is about to be called. *)
Definition countRead : M unit := fun w => (Ok tt, set_reads (S (reads w)) w).

(** The frame delimiter, a blank line. *)
Definition delimiter : jsstring := [LF; LF].

(** [pump]: [readsDone] reads have completed, [pending] is what the
    stream has yet to deliver before it ends with [ending]. *)
Fixpoint pump (sessionId : JValue) (token : CancellationToken) (ending : StreamEnd)
    (readsDone : nat) (pending : list (list Byte.byte)) (st : PumpState) : M unit :=
  if isCancellationRequested token readsDone then
    apiFetch (str "/api/v1/agent/stop") (str "POST")
             (Some (JSON_stringify (JObj [(str "sessionId", sessionId)]))) ;;
    throw (Error (str "User cancelled"))
  else
    countRead ;;
    match pending with
    | [] =>
        match ending with
        | Closed => ret ()
        | Broken e => throw e
        end
    | value :: pending' =>
        let '(text, decoder') := TextDecoder_decode (decoder st) value in
        let parts := split (buffer st ++ text) delimiter in
        let buffer' := default [] (last parts) in
        step ← handleParts (removelast parts) (assistantResponse st);
        match step with
        | Return => ret ()
        | Continue assistantResponse' =>
            pump sessionId token ending (S readsDone) pending'
                 (mkPump buffer' assistantResponse' decoder')
        end
    end.

(** [monitorSession] *)
Definition monitorSession (sessionId : JValue) (token : CancellationToken) : M unit :=
  apiKey ← getApiKey;
  match apiKey with
  | None => throw (Error (str "Not authenticated"))
  | Some apiKey =>
      base ← ask baseUrl;
      resp ← fetch (base ++ str "/api/v1/sse?session_id=" ++
                    encodeURIComponent (toString sessionId))
               None [(str "x-api-key", apiKey)] None;
      match res_ok resp, res_body resp with
      | true, Some body =>
          pump sessionId token (ending body) 0 (chunks body)
               (mkPump [] [] TextDecoder_new)
      | _, _ => throw (Error (str "Failed to connect to SSE stream"))
      end
  end.

(* ================================================================= *)
(** ** [src/project-tree-provider.ts]: [startAISession] *)

(** The labels of [modeItems]. *)
Definition modeItems : list jsstring :=
  [ [55357; 56492] ++ str " Chat";
    [9889] ++ str " Basic";
    [55357; 56960] ++ str " Pro" ].

(** [computeConfig] *)
Definition computeConfigOf (label : jsstring) : jsstring :=
  if includes label (str "Chat") then str "chat"
  else if includes label (str "Basic") then str "basic"
  else str "pro".

(** [progress.report({ message })] *)
Definition report (message : jsstring) : M unit := emit (ProgressReport (JStr message)).

Definition currentSessionId : string := "currentSessionId".

(** The [try] block up to the call of [monitorSession]: project, upload
    and dispatch.  It yields [projectId] and [sessionId]. *)
Definition dispatchSession (message computeConfig : jsstring) : M (JValue * JValue) :=
  report (str "Creating project...") ;;
  projectId ← getEphemeralProject;
  report (str "Uploading workspace files...") ;;
  filesUploaded ← uploadWorkspaceFiles projectId;
  appendLine (str "Uploaded " ++ toString filesUploaded ++ str " workspace file(s)") ;;
  report (str "Starting " ++ computeConfig ++ str " mode...") ;;
  res ← apiFetch (str "/api/v1/agent/dispatch") (str "POST")
          (Some (JSON_stringify
                   (JObj [(str "projectId", projectId);
                          (str "message", JStr message);
                          (str "computeConfig", JStr computeConfig)])));
  data ← json res;
  sessionId ← lift (getProp data (str "sessionId"));
  if negb (truthy sessionId) then
    throw (Error (str "No session ID returned from server"))
  else
    emit (SetSession sessionId) ;;
    workspaceState_update currentSessionId sessionId ;;
    appendLine (str "Session ID: " ++ toString sessionId) ;;
    report (str "Processing...") ;;
    ret (projectId, sessionId).

(** The [try] block after [monitorSession] has returned: download and
    cleanup. *)
Definition collectArtifacts (projectId sessionId : JValue) : M unit :=
  report (str "Downloading artifacts...") ;;
  artifactCount ← downloadArtifacts sessionId;
  if 0 <? artifactCount then
    emit (ShowInformationMessage
            ([9989] ++ str " Session complete! Downloaded " ++ ofN artifactCount ++
             str " artifacts to output/")) ;;
    cleanupEphemeralProject projectId
  else ret ().

(** The [catch] block. *)
Definition reportFailure (error : Exn) : M unit :=
  if negb (eqb (exn_message error) (str "User cancelled")) then
    appendLine (str "ERROR: " ++ exn_message error) ;;
    emit (ShowErrorMessage (str "Session failed: " ++ exn_message error) []) ;;
    emit (AddMessage (str "assistant") (str "Error: " ++ exn_message error))
  else ret ().

(** The callback given to [withProgress]. *)
Definition runSession (message computeConfig : jsstring) (token : CancellationToken) : M unit :=
  try_catch
    ('(projectId, sessionId) ← dispatchSession message computeConfig;
     monitorSession sessionId token ;;
     collectArtifacts projectId sessionId)
    reportFailure.

(** [startAISession]; [token] is the one [withProgress] hands out. *)
Definition startAISession (token : CancellationToken) : M unit :=
  message ← showInputBox (str "What would you like the AI to do?");
  match message with
  | Some (c :: m) =>
      let message := c :: m in
      selectedMode ← showQuickPick modeItems;
      match selectedMode with
      | Some label =>
          emit (AddMessage (str "user") message) ;;
          runSession message (computeConfigOf label) token
      | None => ret ()
      end
  | _ => ret ()
  end.

(* ================================================================= *)
(** ** The components the specification names, read off the code *)

(** The events the monitor tells apart (specification, section 3). *)
Inductive StreamEvent :=
| Progress (message : JValue)
| Content (message : JValue)
| Complete
| ErrorEvent (message : JValue).

(** The Event Frame Decoder on one frame: the branch of the loop body the
    frame selects.  [None] is a frame the loop body passes over: a
    payload that is not JSON, [null], or a [type] the monitor does not
    know. *)
Definition decodeFrame (part : jsstring) : option StreamEvent :=
  match JSON_parse (readLines part).2 with
  | None => None
  | Some parsed =>
      match getProp parsed (str "type") with
      | Throw _ => None
      | Ok type =>
          let message := member (str "message")
                           match parsed with JObj members => members | _ => [] end in
          if isString type (str "progress") then Some (Progress message)
          else if isString type (str "complete") then Some Complete
          else if isString type (str "content") then Some (Content message)
          else if isString type (str "error") then Some (ErrorEvent message)
          else None
      end
  end.

(** What the loop body does with a decoded frame. *)
Definition applyEvent (event : option StreamEvent) (assistantResponse : jsstring) : M Step :=
  match event with
  | Some (Progress message) =>
      emit (ProgressReport message) ;;
      appendLine (str "Progress: " ++ toString message) ;;
      ret (Continue assistantResponse)
  | Some Complete =>
      (if negb (eqb assistantResponse [])
       then emit (AddMessage (str "assistant") assistantResponse)
       else ret ()) ;;
      ret Return
  | Some (Content message) => ret (Continue (assistantResponse ++ orEmpty message))
  | Some (ErrorEvent _) | None => ret (Continue assistantResponse)
  end.

(** The response text a run of events builds up: the texts of its
    [Content] events, in order. *)
Definition responseOf (events : list StreamEvent) : jsstring :=
  concat ((fun event => match event with
                        | Content message => orEmpty message
                        | _ => []
                        end) <$> events).

(** The Event Frame Decoder on a stream: the frames the successive turns
    of [pump] hand to the loop body, with the decoder state and buffer
    carried from one turn to the next. *)
Fixpoint framesOf (d : DecoderState) (buffered : jsstring)
    (pending : list (list Byte.byte)) : list jsstring :=
  match pending with
  | [] => []
  | value :: pending' =>
      let '(text, d') := TextDecoder_decode d value in
      let parts := split (buffered ++ text) delimiter in
      removelast parts ++ framesOf d' (default [] (last parts)) pending'
  end.

(** The events decoded from a stream delivered as [pending]. *)
Definition decodeStream (pending : list (list Byte.byte)) : list StreamEvent :=
  omap decodeFrame (framesOf TextDecoder_new [] pending).

(** A [TextDecoder] in streaming mode decodes a stream the same however
    it is cut: what the Encoding standard asks of [decode] with
    [stream: true]. *)
Definition decodesInPieces : Prop :=
  (forall d, TextDecoder_decode d [] = ([], d)) /\
  (forall d x y,
     TextDecoder_decode d (x ++ y) =
     let '(t1, d1) := TextDecoder_decode d x in
     let '(t2, d2) := TextDecoder_decode d1 y in
     (t1 ++ t2, d2)).

(** The outcome of a monitor run as the specification names it (section
    4.4): the promise of [monitorSession] resolves, or rejects with the
    cancellation error, or rejects with anything else. *)
Inductive Outcome :=
| Completed
| Stopped
| Failed (reason : jsstring).

Definition outcomeOf (r : result unit) : Outcome :=
  match r with
  | Ok _ => Completed
  | Throw e =>
      if eqb (exn_message e) (str "User cancelled") then Stopped
      else Failed (exn_message e)
  end.

(** The failures of a remote call as the specification names them
    (section 7), told apart by the message [apiFetch] throws. *)
Definition AuthExpired (status : N) (text : jsstring) : Exn :=
  Error (str "Authentication failed (" ++ ofN status ++ str "): " ++ text).

Definition RemoteError (status : N) (text : jsstring) : Exn :=
  Error (ofN status ++ str " " ++ text).

(** The world once [monitorSession] holds the open stream: the request
    is logged and the network's answer consumed. *)
Definition connected (sessionId : JValue) (apiKey : jsstring) (w : World) : World :=
  set_remote (tail (remote w))
    (set_log (log w ++
              [Fetch (baseUrl w ++ str "/api/v1/sse?session_id=" ++
                      encodeURIComponent (toString sessionId))
                     None [(str "x-api-key", apiKey)] None]) w).

(** The secret store holds the non-empty key [apiKey]. *)
Definition authenticated (w : World) (apiKey : jsstring) : Prop :=
  secrets w !! apiKeySecret = Some apiKey /\ apiKey <> [].

(** The request [apiFetch] sends. *)
Definition apiRequest (path method : jsstring) (body : option jsstring)
    (apiKey : jsstring) (w : World) : Effect :=
  Fetch (baseUrl w ++ path) (Some method)
        [(str "x-api-key", apiKey); (str "content-type", str "application/json")]
        body.

(** The world once [apiFetch] has its answer: the request is logged and
    the network's answer consumed. *)
Definition requested (path method : jsstring) (body : option jsstring)
    (apiKey : jsstring) (w : World) : World :=
  set_remote (tail (remote w))
    (set_log (log w ++ [apiRequest path method body apiKey w]) w).

(** What [apiFetch] shows and logs on an answer that is not [ok]. *)
Definition errorDetails (path : jsstring) (r : Response) : jsstring :=
  str "API Error [" ++ ofN (res_status r) ++ str "]:" ++ [LF] ++
  str "Endpoint: " ++ path ++ [LF] ++ str "Response: " ++ res_text r.

Definition authFailureShown (path : jsstring) (r : Response) : list Effect :=
  [ConsoleError (errorDetails path r);
   ShowErrorMessage
     (str "Authentication failed (" ++ ofN (res_status r) ++ str "): " ++
      substring0 100 (res_text r))
     [str "Authenticate Now"; str "Details"]].

Definition remoteErrorShown (path : jsstring) (r : Response) : list Effect :=
  (if (res_status r =? 401) || (res_status r =? 403)
   then [ConsoleError (errorDetails path r)] else []) ++
  [ShowErrorMessage
     (str "Reflexible API Error (" ++ ofN (res_status r) ++ str "): " ++
      substring0 200 (res_text r))
     [str "View Details"]].



(** The request [pump] sends when it sees the token set. *)
Definition stopRequest (sessionId : JValue) : jsstring -> World -> Effect :=
  apiRequest (str "/api/v1/agent/stop") (str "POST")
             (Some (JSON_stringify (JObj [(str "sessionId", sessionId)]))).

(** How [pump] ends once the loop body has seen the frames of the whole
    stream: by the [return] at [complete], or else by the [return] at
    [done] or the failure of the read. *)
Definition afterFrames (ending : StreamEnd) (r : result Step) : result unit :=
  match r with
  | Ok Return => Ok ()
  | Ok (Continue _) =>
      match ending with
      | Closed => Ok ()
      | Broken e => Throw e
      end
  | Throw e => Throw e
  end.

End Program.


(** The messages handed to the chat view, the monitor's sink. *)
Definition chatMessages (l : list Effect) : list (jsstring * jsstring) :=
  omap (fun e => match e with AddMessage role content => Some (role, content) | _ => None end) l.

(** The requests sent to the remote service. *)
Definition requests (l : list Effect) : list jsstring :=
  omap (fun e => match e with Fetch url _ _ _ => Some url | _ => None end) l.


(** The file-system calls made. *)
Definition fileSystemCalls (l : list Effect) : list Effect :=
  omap (fun e => match e with CreateDirectory _ | WriteFile _ _ => Some e | _ => None end) l.





(* ================================================================= *)
(** ** A runtime for the examples

    The built-ins on ASCII text: JSON per ECMA-404, bytes below 128
    decoded one to one, letters A-Z lowered.  It is what the examples and
    counterexamples below run on; the theorems hold for every runtime. *)

Module AsciiRuntime.

Definition isJsonSpace (c : char) : bool :=
  (c =? 32) || (c =? 9) || (c =? 10) || (c =? 13).

Fixpoint skipSpace (s : jsstring) : jsstring :=
  match s with
  | c :: s' => if isJsonSpace c then skipSpace s' else s
  | [] => []
  end.

Definition isDigit (c : char) : bool := (48 <=? c) && (c <=? 57).

Definition hexValue (c : char) : option N :=
  if isDigit c then Some (c - 48)
  else if (97 <=? c) && (c <=? 102) then Some (c - 87)
  else if (65 <=? c) && (c <=? 70) then Some (c - 55)
  else None.

(** The characters of a string literal after its opening quote, and what
    follows its closing quote. *)
Fixpoint parseChars (s : jsstring) (seen : jsstring) : option (jsstring * jsstring) :=
  match s with
  | [] => None
  | 34 :: rest => Some (rev seen, rest)
  | 92 :: 117 :: a :: b :: c :: d :: rest =>
      match hexValue a, hexValue b, hexValue c, hexValue d with
      | Some a, Some b, Some c, Some d =>
          parseChars rest (a * 4096 + b * 256 + c * 16 + d :: seen)
      | _, _, _, _ => None
      end
  | 92 :: e :: rest =>
      let plain x := parseChars rest (x :: seen) in
      if e =? 34 then plain 34 else if e =? 92 then plain 92
      else if e =? 47 then plain 47 else if e =? 98 then plain 8
      else if e =? 102 then plain 12 else if e =? 110 then plain 10
      else if e =? 114 then plain 13 else if e =? 116 then plain 9
      else None
  | c :: rest => if c <? 32 then None else parseChars rest (c :: seen)
  end.

Fixpoint digits (s : jsstring) : jsstring * jsstring :=
  match s with
  | c :: s' => if isDigit c then let '(ds, rest) := digits s' in (c :: ds, rest) else ([], s)
  | [] => ([], [])
  end.

(** A number: its lexeme and what follows it. *)
Definition parseNumber (s : jsstring) : option (jsstring * jsstring) :=
  let '(sign, s1) := match s with 45 :: r => ([45], r) | _ => ([], s) end in
  let '(int, s2) := digits s1 in
  match int with
  | [] => None
  | 48 :: _ :: _ => None
  | _ =>
      let frac :=
        match s2 with
        | 46 :: r => let '(ds, r') := digits r in
                     match ds with [] => None | _ => Some (46 :: ds, r') end
        | _ => Some ([], s2)
        end in
      match frac with
      | None => None
      | Some (fr, s3) =>
          let expo :=
            match s3 with
            | e :: r =>
                if (e =? 101) || (e =? 69) then
                  let '(sg, r1) := match r with
                                   | 43 :: r1 => ([43], r1)
                                   | 45 :: r1 => ([45], r1)
                                   | _ => ([], r)
                                   end in
                  let '(ds, r2) := digits r1 in
                  match ds with [] => None | _ => Some (e :: sg ++ ds, r2) end
                else Some ([], s3)
            | [] => Some ([], s3)
            end in
          match expo with
          | None => None
          | Some (ex, s4) => Some (sign ++ int ++ fr ++ ex, s4)
          end
      end
  end.

Fixpoint parseValue (fuel : nat) (s : jsstring) : option (JValue * jsstring) :=
  match fuel with
  | O => None
  | S fuel =>
      match skipSpace s with
      | 110 :: 117 :: 108 :: 108 :: rest => Some (JNull, rest)
      | 116 :: 114 :: 117 :: 101 :: rest => Some (JBool true, rest)
      | 102 :: 97 :: 108 :: 115 :: 101 :: rest => Some (JBool false, rest)
      | 34 :: rest =>
          match parseChars rest [] with
          | Some (text, rest') => Some (JStr text, rest')
          | None => None
          end
      | 91 :: rest =>
          match skipSpace rest with
          | 93 :: rest' => Some (JArr [], rest')
          | _ => parseItems fuel rest []
          end
      | 123 :: rest =>
          match skipSpace rest with
          | 125 :: rest' => Some (JObj [], rest')
          | _ => parseMembers fuel rest []
          end
      | s' =>
          match parseNumber s' with
          | Some (lexeme, rest) => Some (JNum lexeme, rest)
          | None => None
          end
      end
  end
with parseItems (fuel : nat) (s : jsstring) (seen : list JValue)
    : option (JValue * jsstring) :=
  match fuel with
  | O => None
  | S fuel =>
      match parseValue fuel s with
      | Some (v, rest) =>
          match skipSpace rest with
          | 44 :: rest' => parseItems fuel rest' (v :: seen)
          | 93 :: rest' => Some (JArr (rev (v :: seen)), rest')
          | _ => None
          end
      | None => None
      end
  end
with parseMembers (fuel : nat) (s : jsstring) (seen : list (jsstring * JValue))
    : option (JValue * jsstring) :=
  match fuel with
  | O => None
  | S fuel =>
      match skipSpace s with
      | 34 :: rest =>
          match parseChars rest [] with
          | Some (key, rest1) =>
              match skipSpace rest1 with
              | 58 :: rest2 =>
                  match parseValue fuel rest2 with
                  | Some (v, rest3) =>
                      match skipSpace rest3 with
                      | 44 :: rest4 => parseMembers fuel rest4 ((key, v) :: seen)
                      | 125 :: rest4 => Some (JObj (rev ((key, v) :: seen)), rest4)
                      | _ => None
                      end
                  | None => None
                  end
              | _ => None
              end
          | None => None
          end
      | _ => None
      end
  end.

Definition parse (s : jsstring) : option JValue :=
  match parseValue (2 * length s + 2) s with
  | Some (v, rest) => match skipSpace rest with [] => Some v | _ => None end
  | None => None
  end.

Definition hexDigit (n : N) : char := if n <? 10 then 48 + n else 87 + n.

Definition quoteChar (c : char) : jsstring :=
  if c =? 34 then [92; 34] else if c =? 92 then [92; 92]
  else if c =? 8 then [92; 98] else if c =? 12 then [92; 102]
  else if c =? 10 then [92; 110] else if c =? 13 then [92; 114]
  else if c =? 9 then [92; 116]
  else if c <? 32 then [92; 117; 48; 48; hexDigit (c / 16); hexDigit (c mod 16)]
  else [c].

Definition quote (s : jsstring) : jsstring := [34] ++ concat (quoteChar <$> s) ++ [34].

Fixpoint stringify (v : JValue) : jsstring :=
  match v with
  | JUndefined | JNull => str "null"
  | JBool true => str "true"
  | JBool false => str "false"
  | JNum lexeme => lexeme
  | JStr s => quote s
  | JArr items =>
      [91] ++
      (fix join (l : list JValue) : jsstring :=
         match l with
         | [] => []
         | [x] => stringify x
         | x :: l' => stringify x ++ [44] ++ join l'
         end) items ++ [93]
  | JObj members =>
      [123] ++
      (fix join (l : list (jsstring * JValue)) : jsstring :=
         match l with
         | [] => []
         | (_, JUndefined) :: l' => join l'
         | [(k, x)] => quote k ++ [58] ++ stringify x
         | (k, x) :: l' => quote k ++ [58] ++ stringify x ++ [44] ++ join l'
         end) members ++ [125]
  end.

Definition lower (c : char) : char := if (65 <=? c) && (c <=? 90) then c + 32 else c.

(** No digit but 0 before the exponent. *)
Fixpoint isZero (lexeme : jsstring) : bool :=
  match lexeme with
  | [] => true
  | c :: rest =>
      if (c =? 101) || (c =? 69) then true
      else negb ((49 <=? c) && (c <=? 57)) && isZero rest
  end.

Definition isUnreserved (c : char) : bool :=
  isDigit c || (65 <=? c) && (c <=? 90) || (97 <=? c) && (c <=? 122) ||
  (c =? 45) || (c =? 95) || (c =? 46) || (c =? 33) || (c =? 126) ||
  (c =? 42) || (c =? 39) || (c =? 40) || (c =? 41).

Definition upperHex (n : N) : char := if n <? 10 then 48 + n else 55 + n.

Definition percent (c : char) : jsstring :=
  if isUnreserved c then [c] else [37; upperHex (c / 16); upperHex (c mod 16)].

#[global] Instance ascii_runtime : JsRuntime := {|
  JSON_parse := parse;
  JSON_parse_message := fun _ => str "Unexpected token";
  JSON_stringify := stringify;
  Number_isZero := isZero;
  Number_toString := fun lexeme => lexeme;
  toLowerCase := fun s => lower <$> s;
  encodeURIComponent := fun s => concat (percent <$> s);
  DecoderState := unit;
  TextDecoder_new := tt;
  TextDecoder_decode := fun _ value => (Byte.to_N <$> value, tt);
  Buffer_accepts := fun v => match v with JArr _ => true | _ => false end;
|}.

(** The UTF-8 bytes of ASCII text. *)
Definition bytes (s : jsstring) : list Byte.byte :=
  (fun c => default Byte.x00 (Byte.of_N c)) <$> s.

(** A frame of the event stream carrying [v] as its [data:] line. *)
Definition frame (v : JValue) : jsstring := str "data: " ++ stringify v ++ [LF; LF].

End AsciiRuntime.

(* ================================================================= *)
(** ** Example sessions *)

Module Examples.
Import AsciiRuntime.

Definition key : jsstring := str "rfx_key".

Definition workspace : Uri := UriOf (str "file:///work").

(** A workspace folder, a stored key, no [.rfx] files, and the given
    answers of the network. *)
Definition world (replies : list FetchResult) : World :=
  mkWorld {[ apiKeySecret := key ]} ∅ (str "https://reflexible.test")
          [workspace] [] replies [] 0 [].

(** The same with an ephemeral project already stored. *)
Definition worldWithProject (replies : list FetchResult) : World :=
  set_workspaceState {[ ephemeralProjectId := JStr (str "p1") ]} (world replies).

Definition session : JValue := JStr (str "s1").

(** [{ type, message }] *)
Definition event (type message : string) : JValue :=
  JObj [(str "type", JStr (str type)); (str "message", JStr (str message))].

(** [{ type: 'complete' }] *)
Definition completeEvent : JValue := JObj [(str "type", JStr (str "complete"))].

(** The frame of an event, without its delimiter. *)
Definition part (v : JValue) : jsstring := str "data: " ++ stringify v.

(** An answer without a body stream. *)
Definition reply (status : N) (text : jsstring) : Response := mkResponse status text None.

(** An event stream delivered in the given pieces of text and closed. *)
Definition streamOf (pieces : list jsstring) : Stream := mkStream (bytes <$> pieces) Closed.

Definition sse (pieces : list jsstring) : Response :=
  mkResponse 200 [] (Some (streamOf pieces)).

(** The artifact list of the specification's example (section 8). *)
Definition twoArtifacts : JValue :=
  JObj [(str "artifacts",
         JArr [JObj [(str "path", JStr (str "output/a.h")); (str "content", JStr (str "x"))];
               JObj [(str "path", JStr (str "output/b.bin")); (str "content", JStr (str "y"))]])].

End Examples.

(* ================================================================= *)
(** ** [src/commands.ts]: the commands on the stored state *)

Section Commands.
Context `{JsRuntime}.

(** [reconfigureApiKeyCommand] *)
Definition reconfigureApiKeyCommand : M unit :=
  appendLine (str "Reconfigure API key command triggered") ;;
  deleteApiKey ;;
  appendLine (str "Existing API key cleared") ;;
  ensureApiKey ;;
  emit (ShowInformationMessage ([9989] ++ str " API key reconfigured successfully")) ;;
  appendLine (str "New API key configured").

(** [newSessionCommand] *)
Definition newSessionCommand : M unit :=
  appendLine (str "New session command triggered") ;;
  workspaceState_update ephemeralProjectId JUndefined ;;
  workspaceState_update currentSessionId JUndefined ;;
  emit (ShowInformationMessage
          ([55357; 56580] ++ str " New session started - previous context cleared")).


End Commands.

(* ================================================================= *)
(** ** [src/project-tree-provider.ts]: [categorizeFiles] *)

Section Categories.
(** A file of the project listing, of which only [f.path] is read. *)
Context {File : Type} (path : File -> jsstring).

Definition isReflex (f : File) : bool := endsWith (path f) (str ".rfx").

Definition isConfig (f : File) : bool :=
  endsWith (path f) (str ".json") ||
  endsWith (path f) (str ".yaml") ||
  endsWith (path f) (str ".toml").

Definition isOutput (f : File) : bool :=
  (endsWith (path f) (str ".c") ||
   endsWith (path f) (str ".h") ||
   includes (path f) (str "output/") ||
   includes (path f) (str "report")) &&
  negb (endsWith (path f) (str ".uf2")) &&
  negb (endsWith (path f) (str ".bin")) &&
  negb (endsWith (path f) (str ".hex")).

Definition isBinary (f : File) : bool :=
  endsWith (path f) (str ".uf2") ||
  endsWith (path f) (str ".bin") ||
  endsWith (path f) (str ".hex") ||
  endsWith (path f) (str ".elf").

Record Categories := mkCategories {
  reflex : list File;
  config : list File;
  output : list File;
  binary : list File;
}.

(** [categorizeFiles] *)
Definition categorizeFiles (files : list File) : Categories :=
  mkCategories (List.filter isReflex files) (List.filter isConfig files)
               (List.filter isOutput files) (List.filter isBinary files).

End Categories.

(* ================================================================= *)
(** ** [src/chat-tree-provider.ts]: the message list *)

(** The preview of a message in [getChildren]. *)
Definition preview (content : jsstring) : jsstring :=
  if bool_decide (50 < length content)%nat
  then substring0 50 content ++ str "..."
  else content.

(** A [ChatItem] of the message list: its label and its tooltip. *)
Record ChatItem := mkChatItem { label : jsstring; tooltip : option jsstring }.

(** The children of the messages header: one item per message, the
    tooltip set when the content is not empty. *)
Definition messageItems (messages : list (jsstring * jsstring)) : list ChatItem :=
  (fun msg =>
     let icon := if eqb msg.1 (str "user") then [55357; 56420] else [55358; 56598] in
     mkChatItem (icon ++ str " " ++ preview msg.2)
                (match msg.2 with [] => None | _ => Some msg.2 end)) <$> messages.

(** [lines.join(sep)] *)
Fixpoint joinWith (sep : jsstring) (lines : list jsstring) : jsstring :=
  match lines with
  | [] => []
  | [line] => line
  | line :: rest => line ++ sep ++ joinWith sep rest
  end.

(** The secret store holds no key, or an empty one. *)
Definition unauthenticated (w : World) : Prop :=
  secrets w !! apiKeySecret = None \/ secrets w !! apiKeySecret = Some [].

(** The text the user types at the next prompt, if the user types some. *)
Definition typedAnswer (w : World) : option jsstring :=
  match answers w with
  | Typed (c :: s) :: _ => Some (c :: s)
  | _ => None
  end.

(** The compute mode the user picks at the prompt after the next, if the
    user picks one. *)
Definition modePicked (w : World) : option jsstring :=
  match answers w with
  | _ :: Picked i :: _ => modeItems !! i
  | _ => None
  end.

(* ================================================================= *)
(** ** Computations of a chat panel: the world and a webview *)

(** A computation that also posts to a webview; [posted] holds the
    messages posted so far, oldest first.  What was posted before an
    exception stays posted. *)
Definition V (A : Type) : Type :=
  list JValue -> World -> result A * list JValue * World.

Definition vret {A} (a : A) : V A := fun posted w => (Ok a, posted, w).

Definition vbind {A B} (m : V A) (k : A -> V B) : V B :=
  fun posted w => match m posted w with
                  | (Ok a, posted', w') => k a posted' w'
                  | (Throw e, posted', w') => (Throw e, posted', w')
                  end.

Definition vthrow {A} (e : Exn) : V A := fun posted w => (Throw e, posted, w).

Definition vtry {A} (m : V A) (handler : Exn -> V A) : V A :=
  fun posted w => match m posted w with
                  | (Ok a, posted', w') => (Ok a, posted', w')
                  | (Throw e, posted', w') => handler e posted' w'
                  end.

(** A computation on the world alone. *)
Definition vlift {A} (m : M A) : V A :=
  fun posted w => let '(r, w') := m w in (r, posted, w').

(** [webview.postMessage(message)] *)
Definition postMessage (message : JValue) : V unit :=
  fun posted w => (Ok tt, posted ++ [message], w).

Declare Scope V_scope.
Delimit Scope V_scope with V.
Notation "x ← y ; z" := (vbind y (fun x => z))
  (at level 20, y at level 100, z at level 200, only parsing) : V_scope.
Notation "x ;; z" := (vbind x (fun _ => z))
  (at level 100, z at level 200, only parsing, right associativity) : V_scope.

Section Panels.
Context `{JsRuntime}.

(* ----------------------------------------------------------------- *)
(** *** [src/extension.ts]: [streamSse] of the side bar view *)

(** [{ type: 'sse', event, data }] *)
Definition sseMessage (event : jsstring) (data : JValue) : JValue :=
  JObj [(str "type", JStr (str "sse")); (str "event", JStr event); (str "data", data)].

(** The body of [for (const part of parts)]:
    [try { postMessage({ ..., data: JSON.parse(data) }) } catch {}]. *)
Definition postFrame (part : jsstring) : V unit :=
  let '(event, data) := readLines part in
  vtry
    (match JSON_parse data with
     | None => vthrow (SyntaxError (JSON_parse_message data))
     | Some parsed => postMessage (sseMessage event parsed)
     end)
    (fun _ => vret ()).

Fixpoint postFrames (parts : list jsstring) : V unit :=
  match parts with
  | [] => vret ()
  | part :: rest => (postFrame part ;; postFrames rest)%V
  end.

(** [pump] of [streamSse]: [pending] is what the stream has yet to
    deliver before it ends with [ending]. *)
Fixpoint pumpSse (ending : StreamEnd) (pending : list (list Byte.byte))
    (buffer : jsstring) (decoder : DecoderState) : V unit :=
  (vlift countRead ;;
   match pending with
   | [] =>
       match ending with
       | Closed => vret ()
       | Broken e => vthrow e
       end
   | value :: pending' =>
       let '(text, decoder') := TextDecoder_decode decoder value in
       let parts := split (buffer ++ text) delimiter in
       let buffer' := default [] (last parts) in
       postFrames (removelast parts) ;;
       pumpSse ending pending' buffer' decoder'
   end)%V.

(** [streamSse]; [getReader()] of a body always yields a reader. *)
Definition streamSse (sessionId : JValue) : V unit :=
  (apiKey ← vlift getApiKey;
   match apiKey with
   | None => vret ()
   | Some apiKey =>
       base ← vlift (ask baseUrl);
       resp ← vlift (fetch (base ++ str "/api/v1/sse?session_id=" ++
                            encodeURIComponent (toString sessionId))
                       None [(str "x-api-key", apiKey)] None);
       match res_ok resp, res_body resp with
       | true, Some body => pumpSse (ending body) (chunks body) [] TextDecoder_new
       | _, _ => vret ()
       end
   end)%V.

(** What [postFrame] posts for a frame: nothing when the payload is not
    JSON. *)
Definition posting (part : jsstring) : option JValue :=
  let '(event, data) := readLines part in
  sseMessage event <$> JSON_parse data.

(** How a pump that does not return early ends: at the end of the
    stream. *)
Definition atEnd (ending : StreamEnd) : result unit :=
  match ending with
  | Closed => Ok ()
  | Broken e => Throw e
  end.

(* ----------------------------------------------------------------- *)
(** *** [ChatPanelManager]: [streamSSE] of a chat panel *)

(** The inner loop over the lines of a frame, which keeps [data] only. *)
Definition dataOf (part : jsstring) : jsstring :=
  fold_left
    (fun data line =>
       if startsWith line (str "data:") then data ++ trim (slice 5 line) else data)
    (split part [LF])
    [].

(** [{ type: 'sse', data: parsed }] *)
Definition panelMessage (parsed : JValue) : JValue :=
  JObj [(str "type", JStr (str "sse")); (str "data", parsed)].

(** [{ type: 'artifactsDownloaded', count }] *)
Definition downloadedMessage (count : N) : JValue :=
  JObj [(str "type", JStr (str "artifactsDownloaded")); (str "count", JNum (ofN count))].

(** Whether the loop body has returned from [pump]. *)
Inductive PanelStep :=
| PanelContinue
| PanelReturn.

(** One turn of [for (const part of parts)]: [try { ... } catch (e) { }]. *)
Definition panelFrame (sessionId : JValue) (part : jsstring) : V PanelStep :=
  let data := dataOf part in
  vtry
    (match JSON_parse data with
     | None => vthrow (SyntaxError (JSON_parse_message data))
     | Some parsed =>
         postMessage (panelMessage parsed) ;;
         type ← vlift (lift (getProp parsed (str "type")));
         if isString type (str "complete") then
           artifactCount ← vlift (downloadArtifacts sessionId);
           (if 0 <? artifactCount
            then postMessage (downloadedMessage artifactCount)
            else vret ()) ;;
           vret PanelReturn
         else vret PanelContinue
     end)%V
    (fun _ => vret PanelContinue).

Fixpoint panelFrames (sessionId : JValue) (parts : list jsstring) : V PanelStep :=
  match parts with
  | [] => vret PanelContinue
  | part :: rest =>
      (step ← panelFrame sessionId part;
       match step with
       | PanelReturn => vret PanelReturn
       | PanelContinue => panelFrames sessionId rest
       end)%V
  end.

(** [pump] of [streamSSE] *)
Fixpoint pumpSSE (sessionId : JValue) (ending : StreamEnd)
    (pending : list (list Byte.byte)) (buffer : jsstring) (decoder : DecoderState) : V unit :=
  (vlift countRead ;;
   match pending with
   | [] =>
       match ending with
       | Closed => vret ()
       | Broken e => vthrow e
       end
   | value :: pending' =>
       let '(text, decoder') := TextDecoder_decode decoder value in
       let parts := split (buffer ++ text) delimiter in
       let buffer' := default [] (last parts) in
       step ← panelFrames sessionId (removelast parts);
       match step with
       | PanelReturn => vret ()
       | PanelContinue => pumpSSE sessionId ending pending' buffer' decoder'
       end
   end)%V.

(** [streamSSE] *)
Definition streamSSE (sessionId : JValue) : V unit :=
  (apiKey ← vlift getApiKey;
   match apiKey with
   | None => vret ()
   | Some apiKey =>
       base ← vlift (ask baseUrl);
       resp ← vlift (fetch (base ++ str "/api/v1/sse?session_id=" ++
                            encodeURIComponent (toString sessionId))
                       None [(str "x-api-key", apiKey)] None);
       match res_ok resp, res_body resp with
       | true, Some body => pumpSSE sessionId (ending body) (chunks body) [] TextDecoder_new
       | _, _ => vret ()
       end
   end)%V.

(** How [pump] of [streamSSE] ends once the loop body has seen the
    frames of the whole stream. *)
Definition afterPanelFrames (ending : StreamEnd) (r : result PanelStep) : result unit :=
  match r with
  | Ok PanelReturn => Ok ()
  | Ok PanelContinue => atEnd ending
  | Throw e => Throw e
  end.

End Panels.

(** A computation that neither reads nor changes the count of reads. *)
Definition readsBlind {A} (m : M A) : Prop :=
  forall n w, m (set_reads n w) = ((m w).1, set_reads n (m w).2).

(* ================================================================= *)
(** ** Further example worlds *)

Module FurtherExamples.
Import AsciiRuntime Examples.

(** No key in store; the user answers the prompts with [typed]. *)
Definition loggedOut (typed : list Answer) : World :=
  mkWorld ∅ ∅ (str "https://reflexible.test") [workspace] [] [] typed 0 [].

(** A stored key and one [.rfx] file in the workspace. *)
Definition worldWithFile (replies : list FetchResult) : World :=
  mkWorld {[ apiKeySecret := key ]} ∅ (str "https://reflexible.test")
          [workspace] [(str "main.rfx", str "x")] replies [] 0 [].

(** A stored key and no workspace folder. *)
Definition worldWithoutFolder (replies : list FetchResult) : World :=
  mkWorld {[ apiKeySecret := key ]} ∅ (str "https://reflexible.test")
          [] [] replies [] 0 [].

(** The answers of the service to the creation of a project and to a
    dispatch. *)
Definition created : JValue := JObj [(str "project", JObj [(str "id", JStr (str "p1"))])].
Definition dispatched : JValue := JObj [(str "sessionId", JStr (str "s1"))].

(** An event stream that breaks with [e] after the given pieces. *)
Definition brokenSse (pieces : list jsstring) (e : Exn) : Response :=
  mkResponse 200 [] (Some (mkStream (bytes <$> pieces) (Broken e))).

End FurtherExamples.
(* ================================================================= *)
(** * Properties *)

Section Properties.
Context `{JsRuntime}.
Implicit Types (s t sep acc part : jsstring) (parts : list jsstring) (w : World).

(** ** Framing: splitting on the delimiter can be resumed *)


Lemma startsWith_app s t sep : startsWith s sep = true -> startsWith (s ++ t) sep = true.
Proof.
  revert s; induction sep as [|c sep IH]; intros [|d s]; simpl; try done.
  intros [-> E]%andb_prop. by rewrite (IH _ E).
Qed.

Lemma startsWith_length s sep : startsWith s sep = true -> (length sep <= length s)%nat.
Proof.
  revert s; induction sep as [|c sep IH]; intros [|d s]; simpl; try done; try lia.
  intros [_ E]%andb_prop. apply IH in E. lia.
Qed.

Lemma startsWith_app_long s t sep :
  (length sep <= length s)%nat -> startsWith (s ++ t) sep = startsWith s sep.
Proof.
  revert s; induction sep as [|c sep IH]; intros [|d s]; simpl; try done; try lia.
  intros E. rewrite IH; [done | lia].
Qed.

Lemma split_from_nonempty sep k s : split_from sep k s <> [].
Proof.
  revert k; induction s as [|c s IH]; intros k; simpl; [done|].
  destruct k; [|apply IH].
  destruct (startsWith _ _); [done|].
  destruct (split_from sep 0 s); done.
Qed.

Lemma split_from_single sep s x : split_from sep 0 s = [x] -> x = s.
Proof.
  revert x; induction s as [|c s IH]; intros x; simpl.
  - congruence.
  - destruct (startsWith _ _).
    + intros E. injection E as _ E. by apply split_from_nonempty in E.
    + destruct (split_from sep 0 s) as [|seg segs] eqn:E;
        [by apply split_from_nonempty in E|].
      intros E'. injection E' as <- ->. by rewrite (IH seg).
Qed.

Lemma split_from_short sep s : (length s < length sep)%nat -> split_from sep 0 s = [s].
Proof.
  induction s as [|c s IH]; simpl; [done|]. intros E.
  destruct (startsWith (c :: s) sep) eqn:E'.
  - apply startsWith_length in E'. simpl in E'. lia.
  - rewrite IH; [done | lia].
Qed.

Lemma split_from_app sep s t k :
  (k <= length s)%nat ->
  split_from sep k (s ++ t) =
  removelast (split_from sep k s) ++
  split_from sep 0 (default [] (last (split_from sep k s)) ++ t).
Proof.
  revert k; induction s as [|c s IH]; intros k Hk.
  - simpl in *. by assert (k = 0)%nat as -> by lia.
  - destruct k as [|k]; cbn [split_from app]; [|apply IH; simpl in Hk; lia].
    destruct (startsWith (c :: s) sep) eqn:E.
    + pose proof (startsWith_app (c :: s) t sep E) as E1.
      rewrite <- app_comm_cons in E1. rewrite E1.
      pose proof (startsWith_length _ _ E) as HL. simpl in HL.
      rewrite IH by lia.
      destruct (split_from sep (length sep - 1) s) as [|y l] eqn:E2;
        [by apply split_from_nonempty in E2 | done].
    + destruct (startsWith (c :: s ++ t) sep) eqn:E'.
      * assert (length (c :: s) < length sep)%nat as HL.
        { destruct (decide (length sep <= length (c :: s))%nat) as [Hle|]; [|lia].
          rewrite <- (startsWith_app_long (c :: s) t sep Hle) in E.
          simpl in E. congruence. }
        pose proof (split_from_short sep (c :: s) HL) as HS.
        cbn [split_from] in HS. rewrite E in HS. rewrite HS.
        simpl. simpl in E'. by rewrite E'.
      * rewrite IH by lia.
        destruct (split_from sep 0 s) as [|x [|y l]] eqn:E2.
        -- by apply split_from_nonempty in E2.
        -- apply split_from_single in E2 as ->. simpl. by rewrite E'.
        -- simpl. by destruct l.
Qed.

(** Splitting on the frame delimiter can be resumed: the complete
    segments of [s] stay, and the scan goes on from the last one. *)
Lemma split_delimiter_app s t :
  split (s ++ t) delimiter =
  removelast (split s delimiter) ++
  split (default [] (last (split s delimiter)) ++ t) delimiter.
Proof. apply split_from_app. lia. Qed.

Lemma split_delimiter_nonempty s : split s delimiter <> [].
Proof. apply split_from_nonempty. Qed.

Lemma removelast_app_ne {A} (l1 l2 : list A) :
  l2 <> [] -> removelast (l1 ++ l2) = l1 ++ removelast l2.
Proof. intros. by apply removelast_app. Qed.

Lemma framesOf_merge d buffered x y rest :
  decodesInPieces ->
  framesOf d buffered (x :: y :: rest) = framesOf d buffered ((x ++ y) :: rest).
Proof.
  intros [_ Happ]. cbn [framesOf]. rewrite Happ.
  destruct (TextDecoder_decode d x) as [t1 d1].
  destruct (TextDecoder_decode d1 y) as [t2 d2].
  rewrite (assoc_L (++) buffered t1 t2), (split_delimiter_app (buffered ++ t1) t2).
  set (b1 := default [] (last (split (buffered ++ t1) delimiter))).
  pose proof (split_delimiter_nonempty (b1 ++ t2)) as Hne.
  rewrite removelast_app_ne by done.
  rewrite last_app. destruct (last (split (b1 ++ t2) delimiter)) eqn:E.
  - by rewrite <- (assoc_L (++)).
  - apply last_None in E. by destruct Hne.
Qed.

Lemma framesOf_concat d buffered x rest :
  decodesInPieces ->
  framesOf d buffered (x :: rest) = framesOf d buffered [x ++ concat rest].
Proof.
  intros Hd. revert x; induction rest as [|y rest IH]; intros x.
  - simpl. by rewrite (right_id_L [] (++)).
  - rewrite framesOf_merge by done. rewrite IH. simpl. by rewrite (assoc_L (++)).
Qed.

(** C4: however the bytes of a stream are cut into chunks, the Event
    Frame Decoder, which buffers what it is given, splits on the blank
    line and keeps the last segment for the next chunk, yields the events
    it yields on the stream delivered as one chunk, in the same order.
    The [TextDecoder] is taken to decode in pieces as the Encoding
    standard has it. *)
Theorem chunking_does_not_change_events (pending : list (list Byte.byte)) :
  decodesInPieces ->
  decodeStream pending = decodeStream [concat pending].
Proof.
  intros Hd. unfold decodeStream. f_equal.
  destruct pending as [|x rest].
  - simpl. destruct Hd as [Hnil _]. rewrite Hnil. done.
  - apply framesOf_concat, Hd.
Qed.

(** ** Running the monad *)

#[local] Opaque str ofN.

Ltac mrun :=
  unfold appendLine, report, workspaceState_get;
  unfold bind, lift, ret, throw, emit, ask, try_catch,
         countRead, deleteApiKey, setApiKey, workspaceState_update;
  cbn beta iota.

(** ** [apiFetch] *)


Lemma getApiKey_authenticated w apiKey :
  authenticated w apiKey -> getApiKey w = (Ok (Some apiKey), w).
Proof.
  intros [E Hne]. unfold getApiKey, ask. cbn beta. rewrite E. by destruct apiKey.
Qed.

Lemma ensureApiKey_authenticated w apiKey :
  authenticated w apiKey -> ensureApiKey w = (Ok (Some apiKey), w).
Proof.
  intros Hk. unfold ensureApiKey, bind. by rewrite (getApiKey_authenticated w apiKey Hk).
Qed.

(** [apiFetch] with a key in store, case by case on the answer. *)
Lemma apiFetch_answered path method body w apiKey r rest :
  authenticated w apiKey ->
  remote w = Responds r :: rest ->
  apiFetch path method body w =
  let w1 := requested path method body apiKey w in
  if res_ok r then (Ok r, w1)
  else if ((res_status r =? 401) || (res_status r =? 403)) && credentialRejected (res_text r)
  then (Throw (AuthExpired (res_status r) (res_text r)),
        set_log (log w1 ++ authFailureShown path r)
                (set_secrets (delete apiKeySecret (secrets w)) w1))
  else (Throw (RemoteError (res_status r) (res_text r)),
        set_log (log w1 ++ remoteErrorShown path r) w1).
Proof.
  intros Hk Hr. unfold apiFetch. unfold bind at 1.
  rewrite (ensureApiKey_authenticated w apiKey Hk).
  unfold fetch, nextReply, requested, apiRequest. mrun.
  cbn [remote set_log]. rewrite Hr. cbn [tail].
  destruct (res_ok r); cbn [negb]; [done|].
  unfold remoteErrorShown, authFailureShown, errorDetails, AuthExpired, RemoteError.
  destruct ((res_status r =? 401) || (res_status r =? 403)); cbn [andb].
  - destruct (credentialRejected (res_text r)).
    + unfold set_log, set_secrets, set_remote; simpl. by rewrite <- !(assoc_L (++)).
    + unfold set_log, set_secrets, set_remote; simpl. by rewrite <- !(assoc_L (++)).
  - done.
Qed.

(** ** The loop body and [pump] *)


(** The loop body is the Event Frame Decoder followed by [applyEvent]. *)
Lemma handlePart_decode part acc w :
  handlePart part acc w = applyEvent (decodeFrame part) acc w.
Proof.
  unfold handlePart, decodeFrame, applyFrame, applyEvent.
  destruct (readLines part) as [event data]. cbn [snd].
  destruct (JSON_parse data) as [parsed|]; [|done].
  destruct parsed as [| |b|n|s|items|members]; try done.
  cbn [getProp]. mrun.
  destruct (isString _ (str "progress")); [done|].
  destruct (isString _ (str "complete")).
  { destruct (negb (eqb acc [])); done. }
  destruct (isString _ (str "content")); [done|].
  destruct (isString _ (str "error")); done.
Qed.

(** The loop body never throws, and all it does to the world is add to
    the log. *)
Lemma applyEvent_ok event acc w :
  exists step added,
    applyEvent event acc w = (Ok step, set_log (log w ++ added) w) /\
    (step = Return <-> event = Some Complete).
Proof.
  destruct event as [[message|message| |message]|]; unfold applyEvent; mrun.
  - eexists (Continue acc), [_; _]. split; [|by split; intros [=]]. unfold set_log; simpl.
    by rewrite <- (assoc_L (++)).
  - exists (Continue (acc ++ orEmpty message)), []. rewrite (right_id_L [] (++)).
    split; [by destruct w | by split; intros [=]].
  - destruct (negb (eqb acc [])).
    + by eexists Return, [_].
    + exists Return, []. rewrite (right_id_L [] (++)). by destruct w.
  - exists (Continue acc), []. rewrite (right_id_L [] (++)).
    split; [by destruct w | by split; intros [=]].
  - exists (Continue acc), []. rewrite (right_id_L [] (++)).
    split; [by destruct w | by split; intros [=]].
Qed.

Lemma set_log_set_log l l' w : set_log l (set_log l' w) = set_log l w.
Proof. done. Qed.

Lemma handleParts_ok parts acc w :
  exists step added, handleParts parts acc w = (Ok step, set_log (log w ++ added) w).
Proof.
  revert acc w; induction parts as [|part parts IH]; intros acc w; cbn [handleParts].
  - exists (Continue acc), []. rewrite (right_id_L [] (++)). by destruct w.
  - unfold bind. rewrite handlePart_decode.
    destruct (applyEvent_ok (decodeFrame part) acc w) as (step & added & -> & _).
    destruct step as [acc'|].
    + destruct (IH acc' (set_log (log w ++ added) w)) as (step' & added' & ->).
      exists step', (added ++ added'). cbn [log set_log].
      by rewrite (assoc_L (++)).
    + by exists Return, added.
Qed.

(** The loop over the frames, frame list by frame list. *)
Lemma handleParts_app parts1 parts2 acc w :
  handleParts (parts1 ++ parts2) acc w =
  match handleParts parts1 acc w with
  | (Ok (Continue acc'), w') => handleParts parts2 acc' w'
  | other => other
  end.
Proof.
  revert acc w; induction parts1 as [|part parts1 IH]; intros acc w; [done|].
  cbn [handleParts app]. unfold bind.
  destruct (handlePart part acc w) as [[[acc'|]|e] w']; auto.
Qed.

(** The loop body does not look at the read counter. *)
Lemma applyEvent_set_reads event acc n w :
  applyEvent event acc (set_reads n w) =
  let '(r, w') := applyEvent event acc w in (r, set_reads n w').
Proof.
  destruct event as [[message|message| |message]|]; unfold applyEvent; mrun; try done.
  by destruct (negb (eqb acc [])).
Qed.

Lemma handleParts_set_reads parts acc n w :
  handleParts parts acc (set_reads n w) =
  let '(r, w') := handleParts parts acc w in (r, set_reads n w').
Proof.
  revert acc w; induction parts as [|part parts IH]; intros acc w; [done|].
  cbn [handleParts]. unfold bind.
  rewrite !handlePart_decode, applyEvent_set_reads.
  destruct (applyEvent (decodeFrame part) acc w) as [[[acc'|]|e] w']; auto.
Qed.

(** A run of [pump] that is never cancelled is the loop body run over
    the frames of the whole stream, up to the count of reads. *)
Lemma pump_frames sessionId ending readsDone pending st w :
  exists n,
    pump sessionId (mkToken None) ending readsDone pending st w =
    let '(r, w') := handleParts (framesOf (decoder st) (buffer st) pending)
                                (assistantResponse st) w in
    (afterFrames ending r, set_reads n w').
Proof.
  revert readsDone st w; induction pending as [|value pending IH]; intros readsDone st w.
  - exists (S (reads w)). cbn [pump framesOf handleParts isCancellationRequested cancelledFrom].
    mrun. by destruct ending.
  - cbn [pump framesOf isCancellationRequested cancelledFrom].
    destruct (TextDecoder_decode (decoder st) value) as [text d'].
    set (parts := split (buffer st ++ text) delimiter).
    rewrite handleParts_app. unfold bind at 1, countRead.
    unfold bind at 1. rewrite handleParts_set_reads.
    destruct (handleParts (removelast parts) (assistantResponse st) w)
      as [[[acc'|]|e] w'] eqn:E.
    + destruct (IH (S readsDone) (mkPump (default [] (last parts)) acc' d')
                   (set_reads (S (reads w)) w')) as [n ->].
      cbn [decoder buffer assistantResponse].
      rewrite handleParts_set_reads.
      destruct (handleParts _ acc' w') as [r w'']. by exists n.
    + by exists (S (reads w)).
    + by exists (S (reads w)).
Qed.

(** ** [monitorSession] *)

(** With a key in store and the stream open, [monitorSession] is [pump]. *)
Lemma monitorSession_connected sessionId token w apiKey r rest body :
  authenticated w apiKey ->
  remote w = Responds r :: rest ->
  res_ok r = true ->
  res_body r = Some body ->
  monitorSession sessionId token w =
  pump sessionId token (ending body) 0 (chunks body)
       (mkPump [] [] TextDecoder_new) (connected sessionId apiKey w).
Proof.
  intros Hk Hr Hok Hbody. unfold monitorSession. unfold bind at 1.
  rewrite (getApiKey_authenticated w apiKey Hk).
  unfold fetch, nextReply, connected. mrun. cbn [remote set_log].
  rewrite Hr, Hok, Hbody. done.
Qed.

Lemma chatMessages_app l1 l2 : chatMessages (l1 ++ l2) = chatMessages l1 ++ chatMessages l2.
Proof. apply omap_app. Qed.

(** A frame that is dropped, and an [error] frame, leave no trace. *)
Lemma handlePart_passed_over part acc w :
  decodeFrame part = None \/ (exists message, decodeFrame part = Some (ErrorEvent message)) ->
  handlePart part acc w = (Ok (Continue acc), w).
Proof.
  rewrite handlePart_decode. by intros [-> | [message ->]].
Qed.


(** Frames other than [complete] keep the loop going, add the texts of
    the [Content] events among them to the response, and hand nothing to
    the chat view. *)
Lemma handleParts_no_complete parts acc w :
  Forall (fun part => decodeFrame part <> Some Complete) parts ->
  exists w',
    handleParts parts acc w =
      (Ok (Continue (acc ++ responseOf (omap decodeFrame parts))), w') /\
    chatMessages (log w') = chatMessages (log w).
Proof.
  revert acc w; induction parts as [|part parts IH]; intros acc w Hparts.
  - exists w. cbn. by rewrite (right_id_L [] (++)).
  - apply Forall_cons in Hparts as [Hpart Hparts].
    cbn [handleParts omap list_omap]. unfold bind. rewrite handlePart_decode.
    destruct (decodeFrame part) as [[message|message| |message]|];
      unfold applyEvent; mrun; try done.
    + match goal with
      | |- context [handleParts parts acc ?w1] =>
          destruct (IH acc w1 Hparts) as (w' & -> & Hlog)
      end.
      exists w'. split; [done|]. rewrite Hlog. cbn [log set_log].
      rewrite !chatMessages_app. cbn. by rewrite !(right_id_L [] (++)).
    + destruct (IH (acc ++ orEmpty message) w Hparts) as (w' & -> & Hlog).
      exists w'. split; [|done]. unfold responseOf. cbn. by rewrite (assoc_L (++)).
    + apply IH, Hparts.
    + apply IH, Hparts.
Qed.


Lemma chatMessages_connected sessionId apiKey w :
  chatMessages (log (connected sessionId apiKey w)) = chatMessages (log w).
Proof.
  unfold connected. cbn [log set_log set_remote].
  rewrite chatMessages_app. cbn. by rewrite (right_id_L [] (++)).
Qed.

(** C2, as amended: when the stream ends before a [complete] frame has
    been decoded, a monitor run that is not cancelled returns normally,
    the outcome a [complete] frame gives, and hands nothing to the chat
    view; it does not fail. *)
Theorem end_of_stream_returns_normally sessionId w apiKey r rest body :
  authenticated w apiKey ->
  remote w = Responds r :: rest ->
  res_ok r = true ->
  res_body r = Some body ->
  ending body = Closed ->
  Forall (fun part => decodeFrame part <> Some Complete)
         (framesOf TextDecoder_new [] (chunks body)) ->
  outcomeOf (monitorSession sessionId (mkToken None) w).1 = Completed /\
  chatMessages (log (monitorSession sessionId (mkToken None) w).2) = chatMessages (log w).
Proof.
  intros Hk Hr Hok Hbody Hend Hframes.
  rewrite (monitorSession_connected _ _ _ _ _ _ _ Hk Hr Hok Hbody).
  destruct (pump_frames sessionId (ending body) 0 (chunks body)
              (mkPump [] [] TextDecoder_new) (connected sessionId apiKey w)) as [n ->].
  cbn [decoder buffer assistantResponse].
  destruct (handleParts_no_complete _ [] (connected sessionId apiKey w) Hframes)
    as (w' & -> & Hlog).
  rewrite Hend. cbn [afterFrames outcomeOf fst snd log set_reads].
  by rewrite Hlog, chatMessages_connected.
Qed.



Lemma authenticated_connected sessionId apiKey w :
  authenticated w apiKey -> authenticated (connected sessionId apiKey w) apiKey.
Proof. done. Qed.

(** The cancellation branch of [pump]: the stop request, then the error. *)
Lemma pump_cancelled sessionId token ending pending st w :
  isCancellationRequested token 0 = true ->
  pump sessionId token ending 0 pending st w =
  match apiFetch (str "/api/v1/agent/stop") (str "POST")
          (Some (JSON_stringify (JObj [(str "sessionId", sessionId)]))) w with
  | (Ok _, w') => (Throw (Error (str "User cancelled")), w')
  | (Throw e, w') => (Throw e, w')
  end.
Proof.
  intros Hc. destruct pending; cbn [pump]; rewrite Hc; unfold bind, throw;
    by destruct (apiFetch _ _ _ w) as [[?|?] ?].
Qed.

(** A token set before the first read, and a stop request the service
    acknowledges: one stop request, no read, no frame applied, and the
    cancellation error. *)
Lemma cancelled_before_first_read sessionId token w apiKey r ack rest body :
  authenticated w apiKey ->
  remote w = Responds r :: Responds ack :: rest ->
  res_ok r = true ->
  res_body r = Some body ->
  res_ok ack = true ->
  isCancellationRequested token 0 = true ->
  monitorSession sessionId token w =
  (Throw (Error (str "User cancelled")),
   requested (str "/api/v1/agent/stop") (str "POST")
             (Some (JSON_stringify (JObj [(str "sessionId", sessionId)])))
             apiKey (connected sessionId apiKey w)).
Proof.
  intros Hk Hr Hok Hbody Hack Hc.
  rewrite (monitorSession_connected _ _ _ _ _ _ _ Hk Hr Hok Hbody).
  rewrite pump_cancelled by done.
  rewrite (apiFetch_answered _ _ _ _ apiKey ack rest);
    [| by apply authenticated_connected | unfold connected; cbn; by rewrite Hr].
  cbn zeta. by rewrite Hack.
Qed.

(** The run of the monitor does not depend on the chunking either. *)
Lemma monitor_run_independent_of_chunking sessionId ending pending w :
  decodesInPieces ->
  exists n,
    pump sessionId (mkToken None) ending 0 pending (mkPump [] [] TextDecoder_new) w =
    let '(r, w') := pump sessionId (mkToken None) ending 0 [concat pending]
                         (mkPump [] [] TextDecoder_new) w in
    (r, set_reads n w').
Proof.
  intros Hd.
  destruct (pump_frames sessionId ending 0 pending (mkPump [] [] TextDecoder_new) w)
    as [n ->].
  destruct (pump_frames sessionId ending 0 [concat pending]
              (mkPump [] [] TextDecoder_new) w) as [m ->].
  cbn [decoder buffer assistantResponse].
  assert (framesOf TextDecoder_new [] pending =
          framesOf TextDecoder_new [] [concat pending]) as ->.
  { destruct pending as [|x rest]; [|by apply framesOf_concat].
    cbn. destruct Hd as [-> _]. done. }
  destruct (handleParts _ [] w) as [r w']. by exists n.
Qed.

(** ** [apiFetch]: failures of authentication *)

(** C7, as amended: on a 401 or 403 whose body, in lower case, contains
    [expired], [invalid], [unauthorized] or [access denied], the stored
    key is deleted and the authentication failure is thrown; on a 401 or
    403 whose body contains none of the four, the error carrying status
    and body is thrown and the stored key stays. *)
Theorem auth_failure_classification path method body w apiKey r rest :
  authenticated w apiKey ->
  remote w = Responds r :: rest ->
  res_status r = 401 \/ res_status r = 403 ->
  if credentialRejected (res_text r)
  then (apiFetch path method body w).1 = Throw (AuthExpired (res_status r) (res_text r)) /\
       secrets (apiFetch path method body w).2 !! apiKeySecret = None
  else (apiFetch path method body w).1 = Throw (RemoteError (res_status r) (res_text r)) /\
       secrets (apiFetch path method body w).2 = secrets w.
Proof.
  intros Hk Hr Hstatus. rewrite (apiFetch_answered _ _ _ _ _ _ _ Hk Hr). cbn zeta.
  assert (res_ok r = false) as ->
    by (unfold res_ok; destruct Hstatus as [-> | ->]; done).
  assert ((res_status r =? 401) || (res_status r =? 403) = true) as ->
    by (destruct Hstatus as [-> | ->]; done).
  cbn [andb]. destruct (credentialRejected (res_text r)); cbn [fst snd].
  - split; [done|]. cbn [secrets set_log set_secrets]. apply lookup_delete_eq.
  - done.
Qed.

(** ** [cleanupEphemeralProject] *)

Lemma ensureApiKey_workspaceState w :
  workspaceState (ensureApiKey w).2 = workspaceState w.
Proof.
  unfold ensureApiKey, getApiKey, showInputBox, prompt, nextAnswer. mrun.
  destruct (secrets w !! apiKeySecret) as [[|c k]|]; cbn; try done;
    destruct (answers w) as [|[[|c' k'] | |] ?]; done.
Qed.

(** [apiFetch] leaves the workspace state alone. *)
Lemma apiFetch_workspaceState path method body w :
  workspaceState (apiFetch path method body w).2 = workspaceState w.
Proof.
  unfold apiFetch. unfold bind at 1.
  pose proof (ensureApiKey_workspaceState w) as Hw.
  destruct (ensureApiKey w) as [[[apiKey|]|e] w1]; cbn [snd] in Hw; try done.
  unfold fetch, nextReply. mrun. cbn [remote set_log].
  destruct (remote w1) as [|[e|r] rest]; try done.
  destruct (negb (res_ok r)); [|done].
  destruct ((res_status r =? 401) || (res_status r =? 403)); [|done].
  by destruct (credentialRejected (res_text r)).
Qed.

(** C9: [cleanupEphemeralProject] never throws.  When the teardown
    request succeeds the persisted project id is cleared; when it fails
    the failure is logged and the workspace state is left as it was, so a
    project id that was stored is what [getEphemeralProject] returns
    next, without a request. *)
Theorem cleanup_clears_handle_only_on_success projectId w :
  let announced :=
    set_log (log w ++ [AppendLine (str "Cleaning up ephemeral project: " ++
                                   toString projectId)]) w in
  let teardown :=
    apiFetch (str "/api/v1/projects/" ++ toString projectId ++ str "/cleanup")
             (str "DELETE") None announced in
  let w' := (cleanupEphemeralProject projectId w).2 in
  (cleanupEphemeralProject projectId w).1 = Ok () /\
  match teardown.1 with
  | Ok _ => workspaceState w' !! ephemeralProjectId = None
  | Throw e =>
      workspaceState w' = workspaceState w /\
      log w' = log teardown.2 ++
               [AppendLine (str "Failed to cleanup project: " ++ Exn_toString e)] /\
      match workspaceState w !! ephemeralProjectId with
      | Some stored =>
          if truthy stored then getEphemeralProject w' = (Ok stored, w') else True
      | None => True
      end
  end.
Proof.
  intros announced teardown w'.
  pose proof (apiFetch_workspaceState
                (str "/api/v1/projects/" ++ toString projectId ++ str "/cleanup")
                (str "DELETE") None announced) as Hws.
  fold teardown in Hws. subst w'. unfold cleanupEphemeralProject. mrun.
  fold announced. fold teardown.
  destruct teardown as [[res|e] w1]; cbn [fst snd] in *.
  - split; [done|]. cbn [workspaceState set_log set_workspaceState].
    apply lookup_delete_eq.
  - split; [done|]. cbn [workspaceState set_log log]. rewrite Hws.
    split; [done|]. split; [done|].
    destruct (workspaceState w !! ephemeralProjectId) as [stored|] eqn:E; [|done].
    destruct (truthy stored) eqn:Ht; [|done].
    unfold getEphemeralProject. mrun. cbn [workspaceState set_log].
    rewrite Hws. subst announced. cbn [workspaceState set_log].
    rewrite E. cbn [default from_option id]. by rewrite Ht.
Qed.

(** ** [startAISession] *)

(** [monitorSession] leaves the workspace state alone. *)
Lemma pump_workspaceState sessionId token ending readsDone pending st w :
  workspaceState (pump sessionId token ending readsDone pending st w).2 = workspaceState w.
Proof.
  revert readsDone st w; induction pending as [|value pending IH]; intros readsDone st w;
    cbn [pump]; destruct (isCancellationRequested token readsDone).
  - unfold bind, throw.
    pose proof (apiFetch_workspaceState (str "/api/v1/agent/stop") (str "POST")
                  (Some (JSON_stringify (JObj [(str "sessionId", sessionId)]))) w) as Hw.
    by destruct (apiFetch _ _ _ w) as [[?|?] ?].
  - mrun. by destruct ending.
  - unfold bind, throw.
    pose proof (apiFetch_workspaceState (str "/api/v1/agent/stop") (str "POST")
                  (Some (JSON_stringify (JObj [(str "sessionId", sessionId)]))) w) as Hw.
    by destruct (apiFetch _ _ _ w) as [[?|?] ?].
  - destruct (TextDecoder_decode (decoder st) value) as [text d'].
    unfold bind, countRead. rewrite handleParts_set_reads.
    destruct (handleParts_ok (removelast (split (buffer st ++ text) delimiter))
                (assistantResponse st) w) as (step & added & ->).
    destruct step as [acc'|]; [by rewrite IH | done].
Qed.

Lemma monitorSession_workspaceState sessionId token w :
  workspaceState (monitorSession sessionId token w).2 = workspaceState w.
Proof.
  unfold monitorSession, getApiKey, fetch, nextReply. mrun. cbn [remote set_log].
  destruct (secrets w !! apiKeySecret) as [[|c k]|]; try done.
  destruct (remote w) as [|[e|r] rest]; try done.
  destruct (res_ok r); [|done]. destruct (res_body r) as [body|]; [|done].
  by rewrite pump_workspaceState.
Qed.

(** C10: when the monitor phase of a session ends with the cancellation
    error, the callback ends without an error and leaves the world as
    the monitor left it: no request for the artifact list, no file-system
    call, no error shown; and the persisted project id is the one the
    dispatch left. *)
Theorem cancelled_session_is_left_alone message computeConfig token w
    projectId sessionId w1 e w2 :
  dispatchSession message computeConfig w = (Ok (projectId, sessionId), w1) ->
  monitorSession sessionId token w1 = (Throw e, w2) ->
  exn_message e = str "User cancelled" ->
  runSession message computeConfig token w = (Ok (), w2) /\
  workspaceState w2 = workspaceState w1.
Proof.
  intros Hdispatch Hmonitor Hmessage. split.
  - unfold runSession, try_catch, bind. rewrite Hdispatch, Hmonitor.
    unfold reportFailure. rewrite Hmessage.
    unfold eqb. by rewrite bool_decide_eq_true_2.
  - pose proof (monitorSession_workspaceState sessionId token w1) as Hw.
    by rewrite Hmonitor in Hw.
Qed.

(** ** [downloadArtifacts] *)



End Properties.

(* ================================================================= *)
(** * The properties on the example sessions *)

Section OnExamples.
Import AsciiRuntime Examples.

(** Settle the hypotheses of an instance by evaluation. *)
Ltac evaluated :=
  repeat split;
  first [assumption | vm_compute; reflexivity | vm_compute; discriminate | by right].

Lemma ascii_decodesInPieces : decodesInPieces.
Proof.
  split; [by intros []|]. intros [] x y. cbn. by rewrite fmap_app.
Qed.

Lemma world_authenticated replies : authenticated (world replies) key.
Proof. split; [by vm_compute | discriminate]. Qed.

(** C1: an [error] frame does not end the run.  The frames after it are
    applied, the run goes on to the [complete] frame and returns
    normally. *)
Theorem error_event_does_not_fail_monitor :
  let stream := [frame (event "error" "boom") ++ frame (event "content" "late") ++
                 frame completeEvent] in
  let run := monitorSession session (mkToken None) (world [Responds (sse stream)]) in
  decodeStream (bytes <$> stream) =
    [ErrorEvent (JStr (str "boom")); Content (JStr (str "late")); Complete] /\
  outcomeOf run.1 = Completed /\
  outcomeOf run.1 <> Failed (str "boom") /\
  chatMessages (log run.2) = [(str "assistant", str "late")].
Proof. vm_compute. repeat split; discriminate. Qed.

(** C2 as the specification has it does not hold: the stream closes after a [Content]
    frame and before any terminal frame, and the run returns normally. *)
Lemma stream_end_is_not_a_failure :
  let stream := [frame (event "content" "partial")] in
  let run := monitorSession session (mkToken None) (world [Responds (sse stream)]) in
  decodeStream (bytes <$> stream) = [Content (JStr (str "partial"))] /\
  outcomeOf run.1 = Completed /\
  outcomeOf run.1 <> Failed (str "stream closed unexpectedly").
Proof. vm_compute. repeat split; discriminate. Qed.

Lemma end_of_stream_returns_normally_witness :
  let stream := [frame (event "content" "partial"); str "data: {"] in
  let w := world [Responds (sse stream)] in
  (authenticated w key /\
   remote w = [Responds (sse stream)] /\
   res_ok (sse stream) = true /\
   res_body (sse stream) = Some (streamOf stream) /\
   ending (streamOf stream) = Closed /\
   Forall (fun part => decodeFrame part <> Some Complete)
          (framesOf TextDecoder_new [] (chunks (streamOf stream)))) /\
  outcomeOf (monitorSession session (mkToken None) w).1 = Completed /\
  chatMessages (log (monitorSession session (mkToken None) w).2) = chatMessages (log w).
Proof.
  intros stream w.
  assert (Forall (fun part => decodeFrame part <> Some Complete)
                 (framesOf TextDecoder_new [] (chunks (streamOf stream)))) as Hframes.
  { replace (framesOf TextDecoder_new [] (chunks (streamOf stream)))
      with [part (event "content" "partial")] by (vm_compute; reflexivity).
    repeat constructor. vm_compute. discriminate. }
  split.
  - evaluated.
  - pose proof (end_of_stream_returns_normally session w key (sse stream) []
                  (streamOf stream) (world_authenticated _) eq_refl eq_refl eq_refl eq_refl
                  Hframes) as Hthm.
    exact Hthm.
Defined.



Lemma chunking_does_not_change_events_witness :
  let pieces := bytes <$> [frame (event "progress" "step 1") ++ str "data: {";
                           drop 7 (frame (event "content" "Hello")) ++ [LF];
                           [LF] ++ frame completeEvent] in
  decodesInPieces /\
  decodeStream pieces = decodeStream [concat pieces].
Proof.
  intros pieces. split; [exact ascii_decodesInPieces|].
  apply (chunking_does_not_change_events pieces). exact ascii_decodesInPieces.
Defined.

(** C5: the token is set before the first read and the service answers
    the stop request with a 500.  One stop request goes out and nothing
    is read, but the run fails with that answer instead of the
    cancellation. *)
Theorem failed_stop_request_hides_cancellation :
  let w := world [Responds (sse [frame completeEvent]);
                  Responds (reply 500 (str "unavailable"))] in
  let run := monitorSession session (mkToken (Some 0%nat)) w in
  outcomeOf run.1 = Failed (str "500 unavailable") /\
  outcomeOf run.1 <> Stopped /\
  requests (log run.2) =
    [str "https://reflexible.test/api/v1/sse?session_id=s1";
     str "https://reflexible.test/api/v1/agent/stop"] /\
  reads run.2 = 0%nat /\
  chatMessages (log run.2) = [].
Proof. vm_compute. repeat split; discriminate. Qed.



(** C7 as the specification has it does not hold: a 403 whose body holds none of
    [expired], [invalid] and [unauthorized] still deletes the key. *)
Lemma access_denied_deletes_key :
  let text := str "Access Denied" in
  let w := world [Responds (reply 403 text)] in
  let run := apiFetch (str "/api/v1/agent/dispatch") (str "POST") None w in
  (includes (toLowerCase text) (str "expired") = false /\
   includes (toLowerCase text) (str "invalid") = false /\
   includes (toLowerCase text) (str "unauthorized") = false) /\
  run.1 <> Throw (RemoteError 403 text) /\
  run.1 = Throw (AuthExpired 403 text) /\
  secrets w !! apiKeySecret = Some key /\
  secrets run.2 !! apiKeySecret = None.
Proof. vm_compute. repeat split; discriminate. Qed.

Lemma auth_failure_classification_witness :
  let r := reply 403 (str "API key expired") in
  let w := world [Responds r] in
  let run := apiFetch (str "/api/v1/agent/dispatch") (str "POST") None w in
  (authenticated w key /\ remote w = [Responds r] /\
   (res_status r = 401 \/ res_status r = 403)) /\
  run.1 = Throw (AuthExpired 403 (str "API key expired")) /\
  secrets run.2 !! apiKeySecret = None.
Proof.
  intros r w run. split; [evaluated|].
  pose proof (auth_failure_classification (str "/api/v1/agent/dispatch") (str "POST") None
                w key r [] (world_authenticated _) eq_refl (or_intror eq_refl)) as Hthm.
  exact Hthm.
Defined.


Lemma cancelled_session_is_left_alone_witness :
  let w := worldWithProject
             [Responds (reply 200 (stringify (JObj [(str "sessionId", session)])));
              Responds (sse [frame (event "content" "Hello")]);
              Responds (reply 200 [])] in
  let token := mkToken (Some 0%nat) in
  let dispatched := dispatchSession (str "Blink an LED") (str "basic") w in
  let monitored := monitorSession session token dispatched.2 in
  (dispatched.1 = Ok (JStr (str "p1"), session) /\
   monitored.1 = Throw (Error (str "User cancelled"))) /\
  runSession (str "Blink an LED") (str "basic") token w = (Ok (), monitored.2) /\
  workspaceState monitored.2 = workspaceState dispatched.2.
Proof.
  intros w token dispatched monitored.
  split; [evaluated|].
  assert (dispatchSession (str "Blink an LED") (str "basic") w =
          (Ok (JStr (str "p1"), session), dispatched.2)) as Hdispatch
    by (vm_compute; reflexivity).
  assert (monitorSession session token dispatched.2 =
          (Throw (Error (str "User cancelled")), monitored.2)) as Hmonitor
    by (vm_compute; reflexivity).
  pose proof (cancelled_session_is_left_alone (str "Blink an LED") (str "basic") token w
                (JStr (str "p1")) session dispatched.2 (Error (str "User cancelled"))
                monitored.2 Hdispatch Hmonitor eq_refl) as Hthm.
  exact Hthm.
Defined.

End OnExamples.

(* ================================================================= *)
(** * Further properties of the code *)

Section FurtherProperties.
Context `{JsRuntime}.
Implicit Types (s t sep acc part : jsstring) (parts : list jsstring) (w : World).

#[local] Opaque str ofN.

Ltac mrun :=
  unfold appendLine, report, workspaceState_get;
  unfold bind, lift, ret, throw, emit, ask, try_catch,
         countRead, deleteApiKey, setApiKey, workspaceState_update;
  cbn beta iota.

(** ** The buffer of [pump] *)

Lemma split_from_skip sep k s : split_from sep k s = split_from sep 0 (drop k s).
Proof.
  revert k; induction s as [|c s IH]; intros [|k]; try done. cbn [split_from drop]. apply IH.
Qed.

Lemma startsWith_prefix s sep : startsWith s sep = true -> s = sep ++ drop (length sep) s.
Proof.
  revert s; induction sep as [|c sep IH]; intros [|d s]; simpl; try done.
  intros [Hc Hs]%andb_prop. apply N.eqb_eq in Hc as ->. f_equal. by apply IH.
Qed.

Lemma removelast_last_option {A} (l : list A) (d : A) :
  l <> [] -> l = removelast l ++ [default d (last l)].
Proof.
  induction l as [|x [|y l] IH]; intros Hne; try done.
  change (x :: y :: l = x :: (removelast (y :: l) ++ [default d (last (y :: l))])).
  f_equal. by apply IH.
Qed.

Lemma split_from_join sep n s :
  sep <> [] ->
  (length s <= n)%nat ->
  concat ((fun p => p ++ sep) <$> removelast (split_from sep 0 s)) ++
  default [] (last (split_from sep 0 s)) = s.
Proof.
  intros Hsep. revert s; induction n as [|n IH]; intros [|c s] Hn; simpl in Hn; try done;
    try lia.
  cbn [split_from].
  destruct (startsWith (c :: s) sep) eqn:E.
  - rewrite split_from_skip.
    pose proof (split_from_nonempty sep 0 (drop (length sep - 1) s)) as Hne.
    destruct (split_from sep 0 (drop (length sep - 1) s)) as [|x l] eqn:E2; [done|].
    change (removelast ([] :: x :: l)) with ([] :: removelast (x :: l)).
    change (last ([] :: x :: l)) with (last (x :: l)).
    cbn [fmap list_fmap concat app]. rewrite <- E2, <- (assoc_L (++)).
    rewrite IH by (rewrite length_drop; lia).
    pose proof (startsWith_prefix _ _ E) as Hs.
    destruct sep as [|d sep]; [done|]. simpl in *. rewrite Nat.sub_0_r.
    by rewrite <- Hs.
  - pose proof (split_from_nonempty sep 0 s) as Hne.
    specialize (IH s ltac:(lia)).
    destruct (split_from sep 0 s) as [|x [|y l]]; [done| |].
    + simpl in *. by rewrite IH.
    + change (removelast ((c :: x) :: y :: l)) with ((c :: x) :: removelast (y :: l)).
      change (removelast (x :: y :: l)) with (x :: removelast (y :: l)) in IH.
      change (last ((c :: x) :: y :: l)) with (last (y :: l)).
      change (last (x :: y :: l)) with (last (y :: l)) in IH.
      cbn [fmap list_fmap concat app] in *. rewrite <- (assoc_L (++)) in *.
      simpl. f_equal. exact IH.
Qed.

(** X1: buffering loses nothing: the frames handed to the loop body, each
    with the delimiter that closed it, followed by the text kept for the
    next turn, are the buffer and the decoded chunk. *)
Theorem buffering_loses_nothing (buffered text : jsstring) :
  let parts := split (buffered ++ text) delimiter in
  concat ((fun part => part ++ delimiter) <$> removelast parts) ++
  default [] (last parts) = buffered ++ text.
Proof. apply (split_from_join delimiter (length (buffered ++ text))); [done | lia]. Qed.

(** X2: no complete frame stays behind: the text [pump] keeps for the next
    turn holds no delimiter, so splitting it again gives no frame. *)
Theorem retained_buffer_has_no_frame (buffered text : jsstring) :
  let kept := default [] (last (split (buffered ++ text) delimiter)) in
  split kept delimiter = [kept].
Proof.
  intros kept. set (s := buffered ++ text).
  pose proof (split_delimiter_app s []) as Happ.
  rewrite !(right_id_L [] (++)) in Happ. fold kept in Happ.
  pose proof (removelast_last_option (split s delimiter) []
                (split_delimiter_nonempty s)) as Hlast.
  fold kept in Hlast. rewrite Hlast in Happ at 1.
  by apply app_inv_head in Happ.
Qed.

(** ** The lines of a frame *)

Lemma split_line_break line rest :
  LF ∉ line ->
  split_from [LF] 0 (line ++ LF :: rest) = line :: split_from [LF] 0 rest.
Proof.
  induction line as [|c line IH]; intros Hline.
  - done.
  - apply not_elem_of_cons in Hline as [Hc Hline].
    cbn [app split_from startsWith]. rewrite IH by done.
    destruct (LF =? c) eqn:E; [apply N.eqb_eq in E; congruence | done].
Qed.

Lemma split_no_line_break line : LF ∉ line -> split_from [LF] 0 line = [line].
Proof.
  induction line as [|c line IH]; intros Hline; [done|].
  apply not_elem_of_cons in Hline as [Hc Hline].
  cbn [split_from startsWith]. rewrite IH by done.
  destruct (LF =? c) eqn:E; [apply N.eqb_eq in E; congruence | done].
Qed.

(** Splitting a frame on line breaks gives back the lines it was joined from. *)
Lemma split_joinWith_lines lines :
  lines <> [] ->
  Forall (fun line => LF ∉ line) lines ->
  split (joinWith [LF] lines) [LF] = lines.
Proof.
  intros Hne Hlines. unfold split.
  induction Hlines as [|line [|line' lines] Hline Hlines IH]; [done| |].
  - by apply split_no_line_break.
  - change (joinWith [LF] (line :: line' :: lines))
      with (line ++ LF :: joinWith [LF] (line' :: lines)).
    rewrite split_line_break by done. f_equal. by apply IH.
Qed.

Lemma readLines_fold lines event data :
  fold_left
    (fun '(event, data) line =>
       (if startsWith line (str "event:") then trim (slice 6 line) else event,
        if startsWith line (str "data:") then data ++ trim (slice 5 line) else data))
    lines (event, data) =
  (default event
     (last ((fun line => trim (slice 6 line)) <$>
            List.filter (fun line => startsWith line (str "event:")) lines)),
   data ++ concat ((fun line => trim (slice 5 line)) <$>
                   List.filter (fun line => startsWith line (str "data:")) lines)).
Proof.
  revert event data; induction lines as [|line lines IH]; intros event data.
  - cbn. by rewrite (right_id_L [] (++)).
  - cbn [fold_left List.filter]. rewrite IH.
    destruct (startsWith line (str "event:")), (startsWith line (str "data:"));
      cbn [fmap list_fmap concat]; rewrite ?last_cons, ?(assoc_L (++));
      f_equal; by destruct (last _).
Qed.

(** X3: the payload of a frame is the payloads of its [data:] lines, trimmed
    and put together without a separator, in order; its event name is
    that of its last [event:] line, or [message]; every other line is
    ignored. *)
Theorem readLines_of_lines lines :
  lines <> [] ->
  Forall (fun line => LF ∉ line) lines ->
  readLines (joinWith [LF] lines) =
  (default (str "message")
     (last ((fun line => trim (slice 6 line)) <$>
            List.filter (fun line => startsWith line (str "event:")) lines)),
   concat ((fun line => trim (slice 5 line)) <$>
           List.filter (fun line => startsWith line (str "data:")) lines)).
Proof.
  intros Hne Hlines. unfold readLines.
  rewrite (split_joinWith_lines lines Hne Hlines). by rewrite readLines_fold.
Qed.

(** ** [src/api.ts] *)

Lemma requests_app l1 l2 : requests (l1 ++ l2) = requests l1 ++ requests l2.
Proof. apply omap_app. Qed.

Lemma getApiKey_unauthenticated w : unauthenticated w -> getApiKey w = (Ok None, w).
Proof. intros [E | E]; unfold getApiKey, ask; cbn beta; by rewrite E. Qed.

(** X4: without a stored key and without a key typed at the prompt,
    [apiFetch] fails with [Not authenticated] before any request is
    sent; the network and the secret store are not touched. *)
Theorem apiFetch_not_authenticated path method body w :
  unauthenticated w ->
  typedAnswer w = None ->
  let run := apiFetch path method body w in
  run.1 = Throw (Error (str "Not authenticated")) /\
  requests (log run.2) = requests (log w) /\
  remote run.2 = remote w /\
  secrets run.2 = secrets w.
Proof.
  intros Hk Htyped run.
  assert (exists w', run = (Throw (Error (str "Not authenticated")), w') /\
                     requests (log w') = requests (log w) /\
                     remote w' = remote w /\ secrets w' = secrets w)
    as (w' & -> & Hw'); [|done].
  subst run. unfold apiFetch, ensureApiKey. unfold bind at 1 2.
  rewrite (getApiKey_unauthenticated w Hk).
  unfold showInputBox, prompt, nextAnswer. mrun. cbn [answers set_log].
  unfold typedAnswer in Htyped.
  destruct (answers w) as [|[[|c k] | |] rest]; try done;
    (eexists; split; [reflexivity|]);
    cbn [fst snd log set_log set_answers remote secrets];
    rewrite !requests_app; cbn; by rewrite !(right_id_L [] (++)).
Qed.

(** X5: a key typed at the prompt is stored: [ensureApiKey] returns it, and
    from then on returns it without asking again. *)
Theorem ensureApiKey_stores_typed_key w apiKey :
  unauthenticated w ->
  typedAnswer w = Some apiKey ->
  let w' := (ensureApiKey w).2 in
  (ensureApiKey w).1 = Ok (Some apiKey) /\
  authenticated w' apiKey /\
  ensureApiKey w' = (Ok (Some apiKey), w').
Proof.
  intros Hk Htyped w'.
  assert (exists w1, ensureApiKey w = (Ok (Some apiKey), w1) /\ authenticated w1 apiKey)
    as (w1 & Hrun & Hauth).
  { unfold ensureApiKey. unfold bind at 1.
    rewrite (getApiKey_unauthenticated w Hk).
    unfold showInputBox, prompt, nextAnswer. mrun. cbn [answers set_log].
    unfold typedAnswer in Htyped.
    destruct (answers w) as [|[[|c k] | |] rest]; try done.
    injection Htyped as <-. eexists; split; [reflexivity|].
    split; [|done]. cbn [secrets set_secrets]. apply lookup_insert_eq. }
  subst w'. rewrite Hrun. cbn [fst snd].
  split; [done|]. split; [done|]. by apply ensureApiKey_authenticated.
Qed.

(** X6: a failure that is not a 401 or a 403 never costs the stored key,
    whatever its body says: the error carries status and body. *)
Theorem apiFetch_keeps_key_on_other_failures path method body w apiKey r rest :
  authenticated w apiKey ->
  remote w = Responds r :: rest ->
  res_ok r = false ->
  res_status r <> 401 ->
  res_status r <> 403 ->
  (apiFetch path method body w).1 = Throw (RemoteError (res_status r) (res_text r)) /\
  secrets (apiFetch path method body w).2 = secrets w.
Proof.
  intros Hk Hr Hok H401 H403. rewrite (apiFetch_answered _ _ _ _ _ _ _ Hk Hr). cbn zeta.
  rewrite Hok.
  apply N.eqb_neq in H401 as ->. apply N.eqb_neq in H403 as ->. done.
Qed.

Lemma apiFetch_one_request path method body w apiKey :
  authenticated w apiKey ->
  requests (log (apiFetch path method body w).2) = requests (log w) ++ [baseUrl w ++ path] /\
  remote (apiFetch path method body w).2 = tail (remote w).
Proof.
  intros Hk. unfold apiFetch, fetch, nextReply. mrun.
  rewrite (ensureApiKey_authenticated w apiKey Hk). cbn [remote set_log].
  destruct (remote w) as [|[e|r] rest] eqn:Hr.
  - cbn [fst snd log set_log set_remote remote tail]. by rewrite requests_app, Hr.
  - cbn [fst snd log set_log set_remote remote tail]. by rewrite requests_app.
  - destruct (negb (res_ok r));
      [|cbn [fst snd log set_log set_remote remote tail]; by rewrite requests_app].
    destruct ((res_status r =? 401) || (res_status r =? 403));
      [destruct (credentialRejected (res_text r))|];
      cbn [fst snd log set_log set_remote set_secrets remote tail];
      rewrite !requests_app; cbn; by rewrite !(right_id_L [] (++)).
Qed.

(** X7: [apiFetch] makes one attempt: with a key in store it sends exactly
    one request and takes exactly one answer of the network, whether the
    call succeeds, is refused, or fails on the network. *)
Theorem apiFetch_single_attempt path method body w apiKey :
  authenticated w apiKey ->
  requests (log (apiFetch path method body w).2) = requests (log w) ++ [baseUrl w ++ path] /\
  remote (apiFetch path method body w).2 = tail (remote w).
Proof. apply apiFetch_one_request. Qed.

(** ** [src/project-manager.ts] *)

(** X8: the first call creates the project and stores its id; the next call
    returns the stored id and sends nothing. *)
Theorem getEphemeralProject_creates_once w apiKey r rest data project projectId :
  truthy (default JUndefined (workspaceState w !! ephemeralProjectId)) = false ->
  authenticated w apiKey ->
  remote w = Responds r :: rest ->
  res_ok r = true ->
  JSON_parse (res_text r) = Some data ->
  getProp data (str "project") = Ok project ->
  getProp project (str "id") = Ok projectId ->
  truthy projectId = true ->
  let w' := (getEphemeralProject w).2 in
  (getEphemeralProject w).1 = Ok projectId /\
  requests (log w') = requests (log w) ++ [baseUrl w ++ str "/api/v1/projects/ephemeral"] /\
  getEphemeralProject w' = (Ok projectId, w').
Proof.
  intros Hnone Hk Hr Hok Hdata Hproject Hid Htruthy w'.
  assert (exists w1, getEphemeralProject w = (Ok projectId, w1) /\
            requests (log w1) =
              requests (log w) ++ [baseUrl w ++ str "/api/v1/projects/ephemeral"] /\
            workspaceState w1 !! ephemeralProjectId = Some projectId)
    as (w1 & Hrun & Hrequests & Hstored).
  { unfold getEphemeralProject. unfold bind at 1. unfold workspaceState_get, ask.
    rewrite Hnone. cbn [negb]. unfold bind at 1.
    rewrite (apiFetch_answered _ _ _ _ _ _ _ Hk Hr). cbn zeta. rewrite Hok.
    unfold json. rewrite Hdata. mrun. rewrite Hproject, Hid.
    eexists. split; [reflexivity|]. split.
    - unfold requested, apiRequest. cbn [log set_log set_remote set_workspaceState].
      rewrite requests_app. done.
    - cbn [workspaceState set_workspaceState].
      destruct projectId; try done; apply lookup_insert_eq. }
  subst w'. rewrite Hrun. cbn [fst snd]. split; [done|]. split; [done|].
  unfold getEphemeralProject. unfold bind at 1. unfold workspaceState_get, ask.
  rewrite Hstored. cbn [default from_option id]. by rewrite Htruthy.
Qed.

(** X9: when [getEphemeralProject] fails, whether on the request or on its
    answer, nothing is stored: the workspace state is as before. *)
Theorem getEphemeralProject_failure_stores_nothing w e :
  (getEphemeralProject w).1 = Throw e ->
  workspaceState (getEphemeralProject w).2 = workspaceState w.
Proof.
  unfold getEphemeralProject, json. mrun.
  destruct (negb (truthy (default JUndefined (workspaceState w !! ephemeralProjectId))));
    [|done].
  pose proof (apiFetch_workspaceState (str "/api/v1/projects/ephemeral") (str "POST")
                (Some (JSON_stringify (JObj [(str "name", JStr (str "VSCode Session"))])))
                w) as Hws.
  destruct (apiFetch _ _ _ w) as [[res|e'] w1]; cbn [snd] in Hws; [|done].
  destruct (JSON_parse (res_text res)) as [data|]; [|done].
  destruct (getProp data (str "project")) as [project|]; [|done].
  destruct (getProp project (str "id")) as [projectId|]; done.
Qed.

(** X10: a creation answer whose project has no [id] is not refused:
    [getEphemeralProject] returns [undefined] and stores nothing. *)
Theorem project_without_id_is_not_refused w apiKey r rest data project :
  truthy (default JUndefined (workspaceState w !! ephemeralProjectId)) = false ->
  authenticated w apiKey ->
  remote w = Responds r :: rest ->
  res_ok r = true ->
  JSON_parse (res_text r) = Some data ->
  getProp data (str "project") = Ok project ->
  getProp project (str "id") = Ok JUndefined ->
  (getEphemeralProject w).1 = Ok JUndefined /\
  workspaceState (getEphemeralProject w).2 !! ephemeralProjectId = None.
Proof.
  intros Hnone Hk Hr Hok Hdata Hproject Hid.
  unfold getEphemeralProject, workspaceState_get, json. mrun.
  rewrite Hnone. cbn [negb].
  rewrite (apiFetch_answered _ _ _ _ _ _ _ Hk Hr). cbn zeta. rewrite Hok, Hdata.
  rewrite Hproject, Hid. cbn [fst snd workspaceState set_workspaceState].
  split; [done | apply lookup_delete_eq].
Qed.

(** ** [src/file-manager.ts] *)

(** X11: [uploadWorkspaceFiles] sends the [.rfx] files of the workspace in one
    request, and no request at all when there is none. *)
Theorem upload_is_one_batch projectId w apiKey :
  authenticated w apiKey ->
  requests (log (uploadWorkspaceFiles projectId w).2) =
  requests (log w) ++
  match rfxFiles w with
  | [] => []
  | _ :: _ => [baseUrl w ++ str "/api/v1/projects/" ++ toString projectId ++
               str "/files/upload-batch"]
  end.
Proof.
  intros Hk. unfold uploadWorkspaceFiles, json. mrun.
  destruct (rfxFiles w) as [|f files]; [by rewrite (right_id_L [] (++))|].
  cbn [length bool_decide decide_rel]. rewrite bool_decide_eq_false_2 by done.
  match goal with
  | |- context [apiFetch ?p ?m ?b w] =>
      pose proof (apiFetch_one_request p m b w apiKey Hk) as [Hreq _];
      destruct (apiFetch p m b w) as [[res|e] w1]
  end; cbn [snd] in Hreq; [|done].
  destruct (JSON_parse (res_text res)) as [data|]; [|done].
  by destruct (getProp data (str "filesUploaded")).
Qed.

(** X12: without a workspace folder [downloadArtifacts] gives up before it
    asks for the artifact list: it shows an error and returns 0. *)
Theorem downloadArtifacts_without_folder sessionId w :
  workspaceFolders w = [] ->
  let run := downloadArtifacts sessionId w in
  run.1 = Ok 0 /\
  requests (log run.2) = requests (log w) /\
  remote run.2 = remote w /\
  fileSystemCalls (log run.2) = fileSystemCalls (log w).
Proof.
  intros Hfolders run. subst run. unfold downloadArtifacts. mrun. rewrite Hfolders.
  cbn [fst snd log set_log remote]. unfold fileSystemCalls. rewrite requests_app, omap_app.
  cbn. by rewrite !(right_id_L [] (++)).
Qed.

(** [downloadArtifacts] once the artifact list has arrived. *)
Lemma downloadArtifacts_answered sessionId w apiKey r rest folder folders data artifacts :
  authenticated w apiKey ->
  workspaceFolders w = folder :: folders ->
  remote w = Responds r :: rest ->
  res_ok r = true ->
  JSON_parse (res_text r) = Some data ->
  getProp data (str "artifacts") = Ok artifacts ->
  downloadArtifacts sessionId w =
  (if negb (truthy artifacts) || lengthIsZero artifacts then
     _ ← appendLine (str "No artifacts to download"); ret 0
   else
     _ ← emit (CreateDirectory (joinPath folder (str "output")));
     items ← lift (iterate artifacts);
     _ ← forEach (writeArtifact (joinPath folder (str "output"))) items;
     _ ← emit (ShowInformationMessage
                 (str "Downloaded " ++ ofN (N.of_nat (length items)) ++
                  str " artifact(s) to output/"));
     ret (N.of_nat (length items)))
    (requested (str "/api/v1/sessions/" ++ toString sessionId ++ str "/artifacts")
               (str "GET") None apiKey w).
Proof.
  intros Hk Hfolders Hr Hok Hdata Hartifacts.
  unfold downloadArtifacts. unfold bind at 1, ask. rewrite Hfolders.
  unfold bind at 1. rewrite (apiFetch_answered _ _ _ _ _ _ _ Hk Hr). cbn zeta.
  rewrite Hok. unfold bind at 1, json. rewrite Hdata. unfold ret at 1.
  unfold bind at 1, lift at 1. by rewrite Hartifacts.
Qed.



(** ** [monitorSession]: connecting, reading, cancelling *)

(** X14: [monitorSession] needs a stored key and an open stream.  Without a
    key it fails at once, with no prompt and no request; with an answer
    that is not [ok] or has no body it fails after its one request,
    before any read. *)
Theorem monitorSession_needs_open_stream sessionId token w :
  (unauthenticated w ->
   monitorSession sessionId token w = (Throw (Error (str "Not authenticated")), w)) /\
  (forall apiKey r rest,
     authenticated w apiKey ->
     remote w = Responds r :: rest ->
     res_ok r = false \/ res_body r = None ->
     monitorSession sessionId token w =
     (Throw (Error (str "Failed to connect to SSE stream")), connected sessionId apiKey w)).
Proof.
  split.
  - intros Hk. unfold monitorSession. unfold bind at 1.
    by rewrite (getApiKey_unauthenticated w Hk).
  - intros apiKey r rest Hk Hr Hclosed. unfold monitorSession. unfold bind at 1.
    rewrite (getApiKey_authenticated w apiKey Hk).
    unfold fetch, nextReply, connected. mrun. cbn [remote set_log]. rewrite Hr.
    destruct Hclosed as [-> | ->]; [done | by destruct (res_ok r)].
Qed.

(** X15: a read that fails ends the run with the failure of the read: when
    the stream breaks before a [complete] frame, a run that is not
    cancelled throws what [reader.read()] threw, and the response
    gathered so far is not handed to the chat view. *)
Theorem read_failure_propagates sessionId w apiKey r rest body e :
  authenticated w apiKey ->
  remote w = Responds r :: rest ->
  res_ok r = true ->
  res_body r = Some body ->
  ending body = Broken e ->
  Forall (fun part => decodeFrame part <> Some Complete)
         (framesOf TextDecoder_new [] (chunks body)) ->
  (monitorSession sessionId (mkToken None) w).1 = Throw e /\
  chatMessages (log (monitorSession sessionId (mkToken None) w).2) = chatMessages (log w).
Proof.
  intros Hk Hr Hok Hbody Hend Hframes.
  rewrite (monitorSession_connected _ _ _ _ _ _ _ Hk Hr Hok Hbody).
  destruct (pump_frames sessionId (ending body) 0 (chunks body)
              (mkPump [] [] TextDecoder_new) (connected sessionId apiKey w)) as [n ->].
  cbn [decoder buffer assistantResponse].
  destruct (handleParts_no_complete _ [] (connected sessionId apiKey w) Hframes)
    as (w' & -> & Hlog).
  rewrite Hend. cbn [afterFrames fst snd log set_reads].
  by rewrite Hlog, chatMessages_connected.
Qed.

Lemma ensureApiKey_reads w : reads (ensureApiKey w).2 = reads w.
Proof.
  unfold ensureApiKey, getApiKey, showInputBox, prompt, nextAnswer. mrun.
  destruct (secrets w !! apiKeySecret) as [[|c k]|]; cbn; try done;
    destruct (answers w) as [|[[|c' k'] | |] ?]; done.
Qed.

(** [apiFetch] reads nothing from a stream. *)
Lemma apiFetch_reads path method body w : reads (apiFetch path method body w).2 = reads w.
Proof.
  unfold apiFetch. unfold bind at 1.
  pose proof (ensureApiKey_reads w) as Hw.
  destruct (ensureApiKey w) as [[[apiKey|]|e] w1]; cbn [snd] in Hw; try done.
  unfold fetch, nextReply. mrun. cbn [remote set_log].
  destruct (remote w1) as [|[e|r] rest]; try done.
  destruct (negb (res_ok r)); [|done].
  destruct ((res_status r =? 401) || (res_status r =? 403)); [|done].
  by destruct (credentialRejected (res_text r)).
Qed.

(** The cancellation branch of [pump], at any turn. *)
Lemma pump_cancelled_at sessionId token ending readsDone pending st w :
  isCancellationRequested token readsDone = true ->
  pump sessionId token ending readsDone pending st w =
  match apiFetch (str "/api/v1/agent/stop") (str "POST")
          (Some (JSON_stringify (JObj [(str "sessionId", sessionId)]))) w with
  | (Ok _, w') => (Throw (Error (str "User cancelled")), w')
  | (Throw e, w') => (Throw e, w')
  end.
Proof.
  intros Hc. destruct pending; cbn [pump]; rewrite Hc; unfold bind, throw;
    by destruct (apiFetch _ _ _ w) as [[?|?] ?].
Qed.

Lemma pump_reads_bounded sessionId k ending readsDone pending st w :
  (reads (pump sessionId (mkToken (Some k)) ending readsDone pending st w).2
   <= reads w + (k - readsDone))%nat.
Proof.
  revert readsDone st w; induction pending as [|value pending IH]; intros readsDone st w;
    (destruct (isCancellationRequested (mkToken (Some k)) readsDone) eqn:Hc;
     [rewrite pump_cancelled_at by done;
      pose proof (apiFetch_reads (str "/api/v1/agent/stop") (str "POST")
                    (Some (JSON_stringify (JObj [(str "sessionId", sessionId)]))) w);
      destruct (apiFetch _ _ _ w) as [[?|?] ?]; cbn [snd] in *; lia|]);
    cbn [isCancellationRequested cancelledFrom] in Hc;
    apply bool_decide_eq_false_1 in Hc; cbn [pump isCancellationRequested cancelledFrom];
    rewrite bool_decide_eq_false_2 by done.
  - mrun. destruct ending; cbn; lia.
  - destruct (TextDecoder_decode (decoder st) value) as [text d'].
    unfold bind, countRead. rewrite handleParts_set_reads.
    destruct (handleParts_ok (removelast (split (buffer st ++ text) delimiter))
                (assistantResponse st) w) as (step & added & ->).
    destruct step as [acc'|]; [|cbn; lia].
    match goal with
    | |- context [pump _ _ _ _ _ ?st' ?w'] => specialize (IH (S readsDone) st' w')
    end.
    cbn [reads set_reads set_log] in *. lia.
Qed.

(** X16: cancellation bounds the reads: a token that is set once [k] reads
    have completed lets [monitorSession] issue at most [k] reads. *)
Theorem cancellation_bounds_reads sessionId k w :
  (reads (monitorSession sessionId (mkToken (Some k)) w).2 <= reads w + k)%nat.
Proof.
  unfold monitorSession, getApiKey, fetch, nextReply. mrun. cbn [remote set_log].
  destruct (secrets w !! apiKeySecret) as [[|c key]|]; try (cbn; lia).
  destruct (remote w) as [|[e|r] rest]; try (cbn; lia).
  destruct (res_ok r); [|cbn; lia]. destruct (res_body r) as [body|]; [|cbn; lia].
  match goal with
  | |- context [pump _ _ ?e 0 ?p ?st ?w'] =>
      pose proof (pump_reads_bounded sessionId k e 0 p st w') as Hb
  end.
  cbn [reads set_remote set_log] in Hb. lia.
Qed.

Lemma set_reads_set_reads n m w : set_reads n (set_reads m w) = set_reads n w.
Proof. done. Qed.

Lemma pump_cancelled_after sessionId ending readsDone first later st w :
  Forall (fun part => decodeFrame part <> Some Complete)
         (framesOf (decoder st) (buffer st) first) ->
  pump sessionId (mkToken (Some (readsDone + length first)%nat)) ending readsDone
       (first ++ later) st w =
  match apiFetch (str "/api/v1/agent/stop") (str "POST")
          (Some (JSON_stringify (JObj [(str "sessionId", sessionId)])))
          (set_reads (reads w + length first)%nat
             (handleParts (framesOf (decoder st) (buffer st) first)
                          (assistantResponse st) w).2) with
  | (Ok _, w') => (Throw (Error (str "User cancelled")), w')
  | (Throw e, w') => (Throw e, w')
  end.
Proof.
  revert readsDone st w; induction first as [|value first IH]; intros readsDone st w Hframes.
  - rewrite pump_cancelled_at
      by (cbn [isCancellationRequested cancelledFrom length]; apply bool_decide_eq_true_2; lia).
    cbn [framesOf handleParts length]. unfold ret. cbn [snd].
    replace (set_reads (reads w + 0)%nat w) with w; [done|].
    rewrite Nat.add_0_r. by destruct w.
  - cbn [app pump isCancellationRequested cancelledFrom length].
    rewrite bool_decide_eq_false_2 by lia.
    cbn [framesOf] in *.
    destruct (TextDecoder_decode (decoder st) value) as [text d'].
    apply Forall_app in Hframes as [Hnow Hlater].
    unfold bind, countRead. rewrite handleParts_app, !handleParts_set_reads.
    destruct (handleParts_no_complete _ (assistantResponse st) w Hnow) as (w1 & -> & _).
    replace (readsDone + S (length first))%nat with (S readsDone + length first)%nat by lia.
    rewrite IH by done. cbn [decoder buffer assistantResponse].
    rewrite !handleParts_set_reads.
    destruct (handleParts _ _ w1) as [r' w2]. cbn [snd reads set_reads].
    rewrite set_reads_set_reads.
    replace (S (reads w) + length first)%nat with (reads w + S (length first))%nat by lia.
    pose proof (handleParts_ok (removelast (split (buffer st ++ text) delimiter))
                  (assistantResponse st) w) as (step & added & Hstep).
    done.
Qed.

(** X17: cancellation is seen between reads: when the token is set once the
    first chunks have been read, the frames of those chunks have been
    applied, the later chunks are never read, and the run ends with the
    stop request. *)
Theorem cancellation_seen_between_reads sessionId w apiKey r rest body first later :
  authenticated w apiKey ->
  remote w = Responds r :: rest ->
  res_ok r = true ->
  res_body r = Some body ->
  chunks body = first ++ later ->
  Forall (fun part => decodeFrame part <> Some Complete)
         (framesOf TextDecoder_new [] first) ->
  monitorSession sessionId (mkToken (Some (length first))) w =
  match apiFetch (str "/api/v1/agent/stop") (str "POST")
          (Some (JSON_stringify (JObj [(str "sessionId", sessionId)])))
          (set_reads (reads w + length first)%nat
             (handleParts (framesOf TextDecoder_new [] first) []
                          (connected sessionId apiKey w)).2) with
  | (Ok _, w') => (Throw (Error (str "User cancelled")), w')
  | (Throw e, w') => (Throw e, w')
  end.
Proof.
  intros Hk Hr Hok Hbody Hchunks Hframes.
  rewrite (monitorSession_connected _ _ _ _ _ _ _ Hk Hr Hok Hbody), Hchunks.
  by rewrite (pump_cancelled_after sessionId (ending body) 0 first later
                (mkPump [] [] TextDecoder_new) (connected sessionId apiKey w) Hframes).
Qed.



(** X19: an event of a type the monitor does not know, [todo_update] or
    [step_complete] for instance, is passed over: it shows nothing and
    changes nothing. *)
Theorem unknown_event_type_is_ignored part acc w members type :
  JSON_parse (readLines part).2 = Some (JObj members) ->
  member (str "type") members = JStr type ->
  type ∉ [str "progress"; str "complete"; str "content"; str "error"] ->
  handlePart part acc w = (Ok (Continue acc), w).
Proof.
  intros Hparse Htype Hunknown.
  apply handlePart_passed_over. left.
  unfold decodeFrame. rewrite Hparse. cbn [getProp]. rewrite Htype.
  unfold isString, eqb.
  rewrite !bool_decide_eq_false_2; [done|..]; intros ->; apply Hunknown; set_solver.
Qed.

(** ** [startAISession] *)

Lemma reportFailure_ok e w : (reportFailure e w).1 = Ok ().
Proof.
  unfold reportFailure.
  destruct (negb (eqb (exn_message e) (str "User cancelled"))); by mrun.
Qed.

Lemma runSession_ok message computeConfig token w :
  (runSession message computeConfig token w).1 = Ok ().
Proof.
  unfold runSession, try_catch.
  match goal with |- context [let (r, w') := ?body w in _] => destruct (body w) as [[[]|e] w1] end;
    [done | apply reportFailure_ok].
Qed.

(** X20: a session never throws: whatever fails on the way, [startAISession]
    returns normally. *)
Theorem session_never_throws token w : (startAISession token w).1 = Ok ().
Proof.
  unfold startAISession, showInputBox, showQuickPick, prompt, nextAnswer. mrun.
  cbn [answers set_log].
  destruct (answers w) as [|[[|c m] | |] rest]; try done;
    cbn [answers set_log set_answers];
    destruct rest as [|[t|i|] rest']; try done.
  destruct (modeItems !! i); [|done]. apply runSession_ok.
Qed.

(** X21: a failure of the monitor other than the cancellation is reported in
    three places, the output channel, an error message and the chat
    view, and nothing is downloaded. *)
Theorem monitor_failure_is_reported message computeConfig token w
    projectId sessionId w1 e w2 :
  dispatchSession message computeConfig w = (Ok (projectId, sessionId), w1) ->
  monitorSession sessionId token w1 = (Throw e, w2) ->
  exn_message e <> str "User cancelled" ->
  runSession message computeConfig token w =
  (Ok (),
   set_log (log w2 ++
            [AppendLine (str "ERROR: " ++ exn_message e);
             ShowErrorMessage (str "Session failed: " ++ exn_message e) [];
             AddMessage (str "assistant") (str "Error: " ++ exn_message e)]) w2).
Proof.
  intros Hdispatch Hmonitor Hmessage.
  unfold runSession, try_catch, bind. rewrite Hdispatch, Hmonitor.
  unfold reportFailure, eqb. rewrite bool_decide_eq_false_2 by done. mrun.
  unfold set_log; cbn. by rewrite <- !(assoc_L (++)).
Qed.

(** X22: a session without artifacts keeps its project: when the artifact
    list is empty or absent, the step after the monitor sends the one
    request for the list, makes no cleanup request and leaves the
    workspace state, the persisted project id included, as it was. *)
Theorem no_artifacts_no_cleanup projectId sessionId w apiKey r rest folder folders
    data artifacts :
  authenticated w apiKey ->
  workspaceFolders w = folder :: folders ->
  remote w = Responds r :: rest ->
  res_ok r = true ->
  JSON_parse (res_text r) = Some data ->
  getProp data (str "artifacts") = Ok artifacts ->
  negb (truthy artifacts) || lengthIsZero artifacts = true ->
  let run := collectArtifacts projectId sessionId w in
  run.1 = Ok () /\
  workspaceState run.2 = workspaceState w /\
  requests (log run.2) =
  requests (log w) ++
  [baseUrl w ++ str "/api/v1/sessions/" ++ toString sessionId ++ str "/artifacts"].
Proof.
  intros Hk Hfolders Hr Hok Hdata Hartifacts Hempty run. subst run.
  unfold collectArtifacts. mrun.
  rewrite !(downloadArtifacts_answered sessionId _ apiKey r rest folder folders data artifacts)
    by done.
  rewrite Hempty. mrun. cbn [fst snd workspaceState set_log set_remote log requested].
  unfold requested, apiRequest. cbn [log set_log set_remote baseUrl].
  change (0 <? 0)%N with false. cbn [fst snd workspaceState set_log set_remote log].
  rewrite !requests_app. cbn. by rewrite !(right_id_L [] (++)).
Qed.

(** X23: a session that is not started leaves no trace but its prompts: when
    no request is typed, or no compute mode is picked, nothing is added
    to the chat view and nothing is sent. *)
Theorem abandoned_session_does_nothing token w :
  typedAnswer w = None \/ modePicked w = None ->
  let run := startAISession token w in
  run.1 = Ok () /\
  chatMessages (log run.2) = chatMessages (log w) /\
  requests (log run.2) = requests (log w) /\
  workspaceState run.2 = workspaceState w.
Proof.
  intros Habandoned run. subst run.
  unfold startAISession, showInputBox, showQuickPick, prompt, nextAnswer. mrun.
  cbn [answers set_log]. unfold typedAnswer, modePicked in Habandoned.
  assert (forall l : list Effect, forall e1 e2,
            chatMessages l = chatMessages (log w) ->
            requests l = requests (log w) ->
            match e1, e2 with
            | AddMessage _ _, _ | _, AddMessage _ _ | Fetch _ _ _ _, _ | _, Fetch _ _ _ _ => True
            | _, _ => chatMessages ((l ++ [e1]) ++ [e2]) = chatMessages (log w) /\
                      requests ((l ++ [e1]) ++ [e2]) = requests (log w)
            end) as Hquiet.
  { intros l e1 e2 Hc Hq. destruct e1, e2; try done;
      rewrite !chatMessages_app, !requests_app, Hc, Hq; cbn;
      by rewrite !(right_id_L [] (++)). }
  destruct (answers w) as [|[[|c m] | |] rest];
    cbn [fst snd log set_log set_answers answers workspaceState];
    try (rewrite chatMessages_app, requests_app; cbn; by rewrite !(right_id_L [] (++))).
  destruct Habandoned as [Habandoned | Habandoned]; [done|].
  destruct rest as [|[t|i|] rest'];
    cbn [fst snd log set_log set_answers answers workspaceState];
    try (rewrite !chatMessages_app, !requests_app; cbn; by rewrite !(right_id_L [] (++))).
  rewrite Habandoned.
  cbn [fst snd log set_log set_answers answers workspaceState].
  rewrite !chatMessages_app, !requests_app; cbn; by rewrite !(right_id_L [] (++)).
Qed.

(** ** [src/commands.ts] *)

Lemma getEphemeralProject_requests w apiKey :
  truthy (default JUndefined (workspaceState w !! ephemeralProjectId)) = false ->
  authenticated w apiKey ->
  requests (log (getEphemeralProject w).2) =
  requests (log w) ++ [baseUrl w ++ str "/api/v1/projects/ephemeral"].
Proof.
  intros Hnone Hk.
  pose proof (apiFetch_one_request (str "/api/v1/projects/ephemeral") (str "POST")
                (Some (JSON_stringify (JObj [(str "name", JStr (str "VSCode Session"))])))
                w apiKey Hk) as [Hrequests _].
  unfold getEphemeralProject, json. mrun. rewrite Hnone. cbn [negb].
  destruct (apiFetch _ _ _ w) as [[res|e] w1]; [|done]. cbn [fst snd] in Hrequests.
  destruct (JSON_parse (res_text res)) as [data|]; [|done].
  destruct (getProp data (str "project")) as [project|]; [|done].
  by destruct (getProp project (str "id")).
Qed.

(** X24: the command New Session forgets the project and the session: both
    keys leave the workspace state, the stored key stays, nothing is
    sent, and the next [getEphemeralProject] asks for a new project. *)
Theorem new_session_forgets_project w apiKey :
  authenticated w apiKey ->
  let w' := (newSessionCommand w).2 in
  (newSessionCommand w).1 = Ok () /\
  workspaceState w' !! ephemeralProjectId = None /\
  workspaceState w' !! currentSessionId = None /\
  requests (log w') = requests (log w) /\
  requests (log (getEphemeralProject w').2) =
  requests (log w) ++ [baseUrl w ++ str "/api/v1/projects/ephemeral"].
Proof.
  intros Hk w'.
  assert (workspaceState w' !! ephemeralProjectId = None) as Hforgotten.
  { subst w'. unfold newSessionCommand. mrun.
    cbn [snd workspaceState set_workspaceState set_log].
    rewrite lookup_delete_ne by done. apply lookup_delete_eq. }
  assert (requests (log w') = requests (log w)) as Hquiet.
  { subst w'. unfold newSessionCommand. mrun.
    cbn [snd log set_workspaceState set_log].
    rewrite !requests_app. cbn. by rewrite !(right_id_L [] (++)). }
  split; [done|]. split; [done|]. split.
  { subst w'. unfold newSessionCommand. mrun.
    cbn [snd workspaceState set_workspaceState set_log]. apply lookup_delete_eq. }
  split; [done|].
  rewrite (getEphemeralProject_requests w' apiKey).
  - by rewrite Hquiet.
  - by rewrite Hforgotten.
  - done.
Qed.

(** X25: the command Reconfigure API Key leaves in store exactly what the
    user types at its prompt, nothing when the prompt is dismissed or
    left empty; it announces success in both cases. *)
Theorem reconfigure_stores_what_is_typed w :
  let w' := (reconfigureApiKeyCommand w).2 in
  (reconfigureApiKeyCommand w).1 = Ok () /\
  secrets w' !! apiKeySecret = typedAnswer w /\
  ShowInformationMessage ([9989] ++ str " API key reconfigured successfully") ∈ log w'.
Proof.
  unfold reconfigureApiKeyCommand, ensureApiKey, getApiKey, showInputBox, prompt, nextAnswer,
    typedAnswer.
  mrun. cbn [secrets set_secrets set_log answers baseUrl].
  rewrite lookup_delete_eq. cbn [answers set_log set_secrets].
  destruct (answers w) as [|[[|c s]| |] rest];
    cbn [fst snd secrets set_secrets set_log set_answers log];
    (split; [done|]); (split; [first [apply lookup_delete_eq | apply lookup_insert_eq]|]);
    set_solver.
Qed.

End FurtherProperties.

(* ================================================================= *)
(** ** The listings of the side bar *)

Section Listings.

Lemma startsWith_shorter (q : list N) : forall s p : list N,
  startsWith s p = true -> startsWith s q = true -> (length q <= length p)%nat ->
  startsWith p q = true.
Proof.
  induction q as [|c q IH]; intros s p Hp Hq Hlen; [by destruct p|].
  destruct p as [|d p]; [cbn in Hlen; lia|].
  destruct s as [|e s]; [done|]. cbn in *.
  apply andb_true_iff in Hp as [Hd Hp]. apply andb_true_iff in Hq as [Hc Hq].
  apply N.eqb_eq in Hd, Hc. subst. rewrite N.eqb_refl. cbn.
  apply (IH s p); [done|done|lia].
Qed.

Lemma endsWith_shorter (s p q : list N) :
  endsWith s p = true -> endsWith s q = true -> (length q <= length p)%nat ->
  endsWith p q = true.
Proof.
  unfold endsWith. intros Hp Hq Hlen.
  apply (startsWith_shorter _ (rev s)); [done|done|]. by rewrite !length_rev.
Qed.

Ltac clash Hp Hq :=
  let Hc := fresh in
  first [ pose proof (endsWith_shorter _ _ _ Hp Hq ltac:(vm_compute; lia)) as Hc
        | pose proof (endsWith_shorter _ _ _ Hq Hp ltac:(vm_compute; lia)) as Hc ];
  vm_compute in Hc; discriminate Hc.

Context {File : Type} (path : File -> list N).

(** X26: the groups Reflex Files, Configuration and Binaries of the project
    view share no file, and a file listed under both Output and Binaries
    is an [.elf] file. *)
Theorem categories_overlap_only_on_elf (files : list File) :
  let c := categorizeFiles path files in
  (forall f, In f (reflex c) -> ~ In f (config c) /\ ~ In f (binary c)) /\
  (forall f, In f (config c) -> ~ In f (binary c)) /\
  (forall f, In f (output c) -> In f (binary c) -> endsWith (path f) (str ".elf") = true).
Proof.
  intros c. subst c. unfold categorizeFiles. cbn [reflex config output binary].
  unfold isReflex, isConfig, isOutput, isBinary.
  repeat split.
  - intros [_ Hc]%List.filter_In. apply List.filter_In in H as [_ Hr].
    repeat (apply orb_true_iff in Hc as [Hc|Hc]); clash Hr Hc.
  - intros [_ Hb]%List.filter_In. apply List.filter_In in H as [_ Hr].
    repeat (apply orb_true_iff in Hb as [Hb|Hb]); clash Hr Hb.
  - intros f [_ Hc]%List.filter_In [_ Hb]%List.filter_In.
    repeat (apply orb_true_iff in Hc as [Hc|Hc]);
      repeat (apply orb_true_iff in Hb as [Hb|Hb]); clash Hc Hb.
  - intros f [_ Ho]%List.filter_In [_ Hb]%List.filter_In.
    apply andb_true_iff in Ho as [Ho Hhex]. apply andb_true_iff in Ho as [Ho Hbin].
    apply andb_true_iff in Ho as [_ Huf2].
    apply negb_true_iff in Hhex, Hbin, Huf2.
    repeat (apply orb_true_iff in Hb as [Hb|Hb]); congruence.
Qed.

(** X27: an [.elf] file under [output/] is listed twice, under Output and
    under Binaries: the exclusion of binaries from Output names the
    other three extensions only. *)
Theorem elf_under_output_is_listed_twice (files : list File) (f : File) :
  In f files ->
  endsWith (path f) (str ".elf") = true ->
  includes (path f) (str "output/") = true ->
  let c := categorizeFiles path files in
  In f (output c) /\ In f (binary c).
Proof.
  intros Hf Helf Houtput c. subst c. unfold categorizeFiles. cbn [reflex config output binary].
  rewrite !List.filter_In.
  unfold isOutput, isBinary. rewrite Helf, Houtput, !orb_true_r.
  split; [|done]. split; [done|].
  destruct (endsWith (path f) (str ".uf2")) eqn:Huf2; [clash Helf Huf2|].
  destruct (endsWith (path f) (str ".bin")) eqn:Hbin; [clash Helf Hbin|].
  destruct (endsWith (path f) (str ".hex")) eqn:Hhex; [clash Helf Hhex|].
  done.
Qed.

(** X28: the message list shows one item per message, and no label is longer
    than 56 code units: the icon, a space, and at most 50 code units of
    the content followed by three dots. *)
Theorem message_labels_are_bounded (messages : list (list N * list N)) :
  length (messageItems messages) = length messages /\
  Forall (fun item => (length (label item) <= 56)%nat) (messageItems messages).
Proof.
  unfold messageItems. split; [by rewrite length_fmap|].
  apply Forall_fmap, Forall_forall. intros [role content] _. cbn [label fst snd compose].
  assert (length (preview content) <= 53)%nat as Hpreview.
  { unfold preview, substring0. case_bool_decide.
    - rewrite length_app, length_take. change (length (str "...")) with 3%nat. lia.
    - lia. }
  rewrite !length_app. change (length (str " ")) with 1%nat.
  destruct (eqb role (str "user")); cbn [length]; lia.
Qed.

End Listings.

(* ================================================================= *)
(** ** The streams of the chat panels *)

Section PanelProperties.
Context `{JsRuntime}.
#[local] Opaque str ofN.

Ltac mrun :=
  unfold appendLine, report, workspaceState_get;
  unfold bind, lift, ret, throw, emit, ask, try_catch, countRead, deleteApiKey, setApiKey,
    workspaceState_update;
  cbn beta iota.

Ltac vrun :=
  unfold vbind, vlift, vret, vthrow, vtry, postMessage; cbn beta iota.

(** *** [streamSse] *)

Lemma postFrame_posting part posted w :
  postFrame part posted w = (Ok (), posted ++ from_option (fun m => [m]) [] (posting part), w).
Proof.
  unfold postFrame, posting. destruct (readLines part) as [event data]. vrun.
  destruct (JSON_parse data); cbn; [done|]. by rewrite (right_id_L [] (++)).
Qed.

Lemma postFrames_posting parts posted w :
  postFrames parts posted w = (Ok (), posted ++ omap posting parts, w).
Proof.
  revert posted; induction parts as [|part parts IH]; intros posted.
  - cbn. unfold vret. by rewrite (right_id_L [] (++)).
  - cbn [postFrames omap list_omap]. unfold vbind. rewrite postFrame_posting, IH.
    rewrite <- (assoc_L (++)). by destruct (posting part).
Qed.

Lemma pumpSse_frames ending pending buffer d posted w :
  pumpSse ending pending buffer d posted w =
  (atEnd ending, posted ++ omap posting (framesOf d buffer pending),
   set_reads (reads w + S (length pending)) w).
Proof.
  revert buffer d posted w;
    induction pending as [|value pending IH]; intros buffer d posted w.
  - cbn [pumpSse framesOf omap list_omap length]. vrun. mrun.
    rewrite (right_id_L [] (++)), Nat.add_1_r. by destruct ending.
  - cbn [pumpSse framesOf length]. vrun. mrun.
    destruct (TextDecoder_decode d value) as [text d'].
    rewrite postFrames_posting, IH, set_reads_set_reads.
    rewrite omap_app, (assoc_L (++)). cbn [reads set_reads].
    by replace (S (reads w) + S (length pending))%nat
      with (reads w + S (S (length pending)))%nat by lia.
Qed.

(** X29: the side bar view is sent every frame of the stream that carries
    JSON, in order and whatever its type, a [complete] frame included:
    [streamSse] returns only when the stream ends, and what it posts
    does not depend on how the stream is cut into chunks. *)
Theorem streamSse_posts_every_frame sessionId posted w apiKey r rest body :
  decodesInPieces ->
  authenticated w apiKey ->
  remote w = Responds r :: rest ->
  res_ok r = true ->
  res_body r = Some body ->
  streamSse sessionId posted w =
  (atEnd (ending body),
   posted ++ omap posting (framesOf TextDecoder_new [] [concat (chunks body)]),
   set_reads (reads w + S (length (chunks body))) (connected sessionId apiKey w)).
Proof.
  intros Hd [Hk Hne] Hr Hok Hbody.
  unfold streamSse, getApiKey, fetch, nextReply. vrun. mrun.
  rewrite Hk. destruct apiKey as [|c k]; [done|].
  cbn [remote set_log]. rewrite Hr, Hok, Hbody.
  rewrite pumpSse_frames. unfold connected. rewrite Hr. cbn [tail reads set_log set_remote].
  destruct (chunks body) as [|x pending]; [|by rewrite (framesOf_concat _ _ _ _ Hd)].
  cbn [framesOf concat]. destruct Hd as [Hempty _]. rewrite Hempty. by cbn.
Qed.

(** *** [streamSSE] *)

Lemma readsBlind_ret {A} (a : A) : readsBlind (ret a).
Proof. done. Qed.

Lemma readsBlind_throw {A} e : readsBlind (throw (A := A) e).
Proof. done. Qed.

Lemma readsBlind_lift {A} (r : result A) : readsBlind (lift r).
Proof. done. Qed.

Lemma readsBlind_emit e : readsBlind (emit e).
Proof. done. Qed.

Lemma readsBlind_bind {A B} (m : M A) (k : A -> M B) :
  readsBlind m -> (forall a, readsBlind (k a)) -> readsBlind (bind m k).
Proof.
  intros Hm Hk n w. unfold bind. rewrite Hm.
  destruct (m w) as [[a|e] w']; cbn [fst snd]; [apply Hk|done].
Qed.

Lemma readsBlind_nextAnswer : readsBlind nextAnswer.
Proof. intros n w. unfold nextAnswer. cbn. by destruct (answers w). Qed.

Lemma readsBlind_nextReply : readsBlind nextReply.
Proof. intros n w. unfold nextReply. cbn. by destruct (remote w) as [|[e|r] rest]. Qed.

Lemma readsBlind_forEach {A} (body : A -> M unit) items :
  (forall a, readsBlind (body a)) -> readsBlind (forEach body items).
Proof.
  intros Hbody. induction items as [|item items IH]; [done|].
  cbn [forEach]. apply readsBlind_bind; [apply Hbody|done].
Qed.

Ltac blind :=
  repeat first
    [ apply readsBlind_ret | apply readsBlind_throw | apply readsBlind_lift
    | apply readsBlind_emit | apply readsBlind_nextAnswer | apply readsBlind_nextReply
    | apply readsBlind_bind; [|intros ?]
    | apply readsBlind_forEach; intros ?
    | match goal with
      | |- readsBlind (match ?x with _ => _ end) => destruct x
      end
    | done ].

Lemma readsBlind_ensureApiKey : readsBlind ensureApiKey.
Proof.
  unfold ensureApiKey, getApiKey, showInputBox, prompt, appendLine. blind.
Qed.

Lemma readsBlind_apiFetch path method body : readsBlind (apiFetch path method body).
Proof.
  unfold apiFetch, fetch. apply readsBlind_bind; [apply readsBlind_ensureApiKey|].
  intros [apiKey|]; blind.
Qed.

Lemma readsBlind_downloadArtifacts sessionId : readsBlind (downloadArtifacts sessionId).
Proof.
  unfold downloadArtifacts. apply readsBlind_bind; [done|].
  intros [|folder folders]; [blind|].
  apply readsBlind_bind; [apply readsBlind_apiFetch|]. intros res.
  unfold json, writeArtifact, appendLine. blind.
Qed.

Lemma panelFrame_set_reads sessionId part n posted w :
  panelFrame sessionId part posted (set_reads n w) =
  let '(r, posted', w') := panelFrame sessionId part posted w in (r, posted', set_reads n w').
Proof.
  unfold panelFrame. vrun. destruct (JSON_parse (dataOf part)) as [parsed|]; [|done].
  unfold lift. destruct (getProp parsed (str "type")) as [type|]; [|done].
  destruct (isString type (str "complete")); [|done].
  rewrite readsBlind_downloadArtifacts.
  destruct (downloadArtifacts sessionId w) as [[count|e] w']; cbn [fst snd]; [|done].
  by destruct (0 <? count).
Qed.

Lemma panelFrames_set_reads sessionId parts n posted w :
  panelFrames sessionId parts posted (set_reads n w) =
  let '(r, posted', w') := panelFrames sessionId parts posted w in (r, posted', set_reads n w').
Proof.
  revert posted w; induction parts as [|part parts IH]; intros posted w; [done|].
  cbn [panelFrames]. unfold vbind. rewrite panelFrame_set_reads.
  destruct (panelFrame sessionId part posted w) as [[[[]|e] posted'] w']; auto.
Qed.

Lemma panelFrames_app sessionId parts1 parts2 posted w :
  panelFrames sessionId (parts1 ++ parts2) posted w =
  match panelFrames sessionId parts1 posted w with
  | (Ok PanelContinue, posted', w') => panelFrames sessionId parts2 posted' w'
  | r => r
  end.
Proof.
  revert posted w; induction parts1 as [|part parts1 IH]; intros posted w; [done|].
  cbn [panelFrames app]. unfold vbind.
  destruct (panelFrame sessionId part posted w) as [[[[]|e] posted'] w']; auto.
Qed.

Lemma pumpSSE_frames sessionId ending pending buffer d posted w :
  exists n,
    pumpSSE sessionId ending pending buffer d posted w =
    let '(r, posted', w') :=
      panelFrames sessionId (framesOf d buffer pending) posted w in
    (afterPanelFrames ending r, posted', set_reads n w').
Proof.
  revert buffer d posted w;
    induction pending as [|value pending IH]; intros buffer d posted w.
  - exists (S (reads w)). cbn [pumpSSE framesOf panelFrames]. vrun. mrun. by destruct ending.
  - cbn [pumpSSE framesOf]. vrun. mrun.
    destruct (TextDecoder_decode d value) as [text d'].
    set (parts := split (buffer ++ text) delimiter).
    rewrite panelFrames_app, panelFrames_set_reads.
    destruct (panelFrames sessionId (removelast parts) posted w)
      as [[[[]|e] posted'] w'] eqn:E.
    + destruct (IH (default [] (last parts)) d' posted' (set_reads (S (reads w)) w'))
        as [n ->].
      rewrite panelFrames_set_reads.
      destruct (panelFrames sessionId _ posted' w') as [[r posted''] w'']. by exists n.
    + by exists (S (reads w)).
    + by exists (S (reads w)).
Qed.

Lemma panelFrame_failed_download sessionId part parsed type posted w e :
  JSON_parse (dataOf part) = Some parsed ->
  getProp parsed (str "type") = Ok type ->
  isString type (str "complete") = true ->
  (downloadArtifacts sessionId w).1 = Throw e ->
  panelFrame sessionId part posted w =
  (Ok PanelContinue, posted ++ [panelMessage parsed], (downloadArtifacts sessionId w).2).
Proof.
  intros Hparsed Htype Hcomplete Hfailed.
  unfold panelFrame. vrun. rewrite Hparsed. unfold lift. rewrite Htype, Hcomplete.
  by destruct (downloadArtifacts sessionId w) as [[count|e'] w'].
Qed.

(** X30: a chat panel whose download fails at [complete] goes on as if the
    frame had been any other: the failure is swallowed with the parse
    errors, the panel is told nothing of it, and [streamSSE] handles the
    frames that follow, a later [complete] included. *)
Theorem failed_download_keeps_panel_stream_open sessionId posted w apiKey r rest body
    before part after parsed type posted1 w1 e :
  authenticated w apiKey ->
  remote w = Responds r :: rest ->
  res_ok r = true ->
  res_body r = Some body ->
  framesOf TextDecoder_new [] (chunks body) = before ++ part :: after ->
  panelFrames sessionId before posted (connected sessionId apiKey w) =
    (Ok PanelContinue, posted1, w1) ->
  JSON_parse (dataOf part) = Some parsed ->
  getProp parsed (str "type") = Ok type ->
  isString type (str "complete") = true ->
  (downloadArtifacts sessionId w1).1 = Throw e ->
  exists n,
    streamSSE sessionId posted w =
    let '(r', posted', w') :=
      panelFrames sessionId after (posted1 ++ [panelMessage parsed])
                  (downloadArtifacts sessionId w1).2 in
    (afterPanelFrames (ending body) r', posted', set_reads n w').
Proof.
  intros [Hk Hne] Hr Hok Hbody Hframes Hbefore Hparsed Htype Hcomplete Hfailed.
  unfold streamSSE, getApiKey, fetch, nextReply. vrun. mrun.
  rewrite Hk. destruct apiKey as [|c k]; [done|].
  cbn [remote set_log]. rewrite Hr, Hok, Hbody.
  destruct (pumpSSE_frames sessionId (ending body) (chunks body) [] TextDecoder_new posted
              (connected sessionId (c :: k) w)) as [n Hpump].
  unfold connected in Hpump, Hbefore. rewrite Hr in Hpump, Hbefore.
  cbn [tail] in Hpump, Hbefore. rewrite Hpump, Hframes, panelFrames_app, Hbefore.
  cbn [panelFrames]. unfold vbind at 1.
  rewrite (panelFrame_failed_download _ _ _ _ _ _ _ Hparsed Htype Hcomplete Hfailed).
  by exists n.
Qed.

End PanelProperties.

(* ================================================================= *)
(** * The further properties on example sessions *)

Section OnFurtherExamples.
Import AsciiRuntime Examples FurtherExamples.

Ltac evaluated :=
  repeat split;
  first [assumption | vm_compute; reflexivity | vm_compute; discriminate | by right].

Lemma readLines_of_lines_witness :
  let lines := [str "event: progress"; str "data: {"; str "data: }"] in
  (lines <> [] /\ Forall (fun line => LF ∉ line) lines) /\
  readLines (joinWith [LF] lines) =
  (default (str "message")
     (last ((fun line => trim (slice 6 line)) <$>
            List.filter (fun line => startsWith line (str "event:")) lines)),
   concat ((fun line => trim (slice 5 line)) <$>
           List.filter (fun line => startsWith line (str "data:")) lines)).
Proof.
  intros lines.
  assert (lines <> []) as Hlines by discriminate.
  assert (Forall (fun line => LF ∉ line) lines) as Hbreaks.
  { repeat constructor; apply (bool_decide_unpack _); vm_compute; reflexivity. }
  split; [done|].
  pose proof (readLines_of_lines lines Hlines Hbreaks) as Hthm. exact Hthm.
Defined.

Lemma apiFetch_not_authenticated_witness :
  let w := loggedOut [] in
  let run := apiFetch (str "/api/v1/config") (str "GET") None w in
  (unauthenticated w /\ typedAnswer w = None) /\
  run.1 = Throw (Error (str "Not authenticated")) /\
  requests (log run.2) = requests (log w) /\
  remote run.2 = remote w /\
  secrets run.2 = secrets w.
Proof.
  intros w run.
  assert (unauthenticated w) as Hout by (left; vm_compute; reflexivity).
  assert (typedAnswer w = None) as Htyped by reflexivity.
  split; [done|].
  pose proof (apiFetch_not_authenticated (str "/api/v1/config") (str "GET") None w
                Hout Htyped) as Hthm.
  exact Hthm.
Defined.

Lemma ensureApiKey_stores_typed_key_witness :
  let w := loggedOut [Typed key] in
  let w' := (ensureApiKey w).2 in
  (unauthenticated w /\ typedAnswer w = Some key) /\
  (ensureApiKey w).1 = Ok (Some key) /\
  authenticated w' key /\
  ensureApiKey w' = (Ok (Some key), w').
Proof.
  intros w w'.
  assert (unauthenticated w) as Hout by (left; vm_compute; reflexivity).
  assert (typedAnswer w = Some key) as Htyped by (vm_compute; reflexivity).
  split; [done|].
  pose proof (ensureApiKey_stores_typed_key w key Hout Htyped) as Hthm. exact Hthm.
Defined.

Lemma apiFetch_keeps_key_on_other_failures_witness :
  let r := reply 500 (str "unavailable") in
  let w := world [Responds r] in
  let run := apiFetch (str "/api/v1/config") (str "GET") None w in
  (authenticated w key /\ remote w = [Responds r] /\ res_ok r = false /\
   res_status r <> 401 /\ res_status r <> 403) /\
  run.1 = Throw (RemoteError (res_status r) (res_text r)) /\
  secrets run.2 = secrets w.
Proof.
  intros r w run.
  assert (res_status r <> 401) as H401 by (vm_compute; discriminate).
  assert (res_status r <> 403) as H403 by (vm_compute; discriminate).
  split; [evaluated|].
  pose proof (apiFetch_keeps_key_on_other_failures (str "/api/v1/config") (str "GET") None
                w key r [] (world_authenticated _) eq_refl eq_refl H401 H403) as Hthm.
  exact Hthm.
Defined.

Lemma apiFetch_single_attempt_witness :
  let w := world [] in
  let run := apiFetch (str "/api/v1/config") (str "GET") None w in
  authenticated w key /\
  requests (log run.2) = requests (log w) ++ [baseUrl w ++ str "/api/v1/config"] /\
  remote run.2 = tail (remote w).
Proof.
  intros w run. split; [evaluated|].
  pose proof (apiFetch_single_attempt (str "/api/v1/config") (str "GET") None
                w key (world_authenticated _)) as Hthm.
  exact Hthm.
Defined.

Lemma getEphemeralProject_creates_once_witness :
  let r := reply 200 (stringify created) in
  let w := world [Responds r] in
  let project := JObj [(str "id", JStr (str "p1"))] in
  let w' := (getEphemeralProject w).2 in
  (truthy (default JUndefined (workspaceState w !! ephemeralProjectId)) = false /\
   authenticated w key /\ remote w = [Responds r] /\ res_ok r = true /\
   JSON_parse (res_text r) = Some created /\
   getProp created (str "project") = Ok project /\
   getProp project (str "id") = Ok (JStr (str "p1")) /\
   truthy (JStr (str "p1")) = true) /\
  (getEphemeralProject w).1 = Ok (JStr (str "p1")) /\
  requests (log w') = requests (log w) ++ [baseUrl w ++ str "/api/v1/projects/ephemeral"] /\
  getEphemeralProject w' = (Ok (JStr (str "p1")), w').
Proof.
  intros r w project w'.
  assert (truthy (default JUndefined (workspaceState w !! ephemeralProjectId)) = false)
    as Hnone by (vm_compute; reflexivity).
  assert (JSON_parse (res_text r) = Some created) as Hdata by (vm_compute; reflexivity).
  assert (getProp created (str "project") = Ok project) as Hproject
    by (vm_compute; reflexivity).
  assert (getProp project (str "id") = Ok (JStr (str "p1"))) as Hid
    by (vm_compute; reflexivity).
  assert (truthy (JStr (str "p1")) = true) as Htruthy by (vm_compute; reflexivity).
  split; [evaluated|].
  pose proof (getEphemeralProject_creates_once w key r [] created project (JStr (str "p1"))
                Hnone (world_authenticated _) eq_refl eq_refl Hdata Hproject Hid Htruthy)
    as Hthm.
  exact Hthm.
Defined.

Lemma getEphemeralProject_failure_stores_nothing_witness :
  let w := world [Responds (reply 500 (str "unavailable"))] in
  (getEphemeralProject w).1 = Throw (RemoteError 500 (str "unavailable")) /\
  workspaceState (getEphemeralProject w).2 = workspaceState w.
Proof.
  intros w.
  assert ((getEphemeralProject w).1 = Throw (RemoteError 500 (str "unavailable")))
    as Hfailed by (vm_compute; reflexivity).
  split; [done|].
  pose proof (getEphemeralProject_failure_stores_nothing w _ Hfailed) as Hthm. exact Hthm.
Defined.

Lemma project_without_id_is_not_refused_witness :
  let data := JObj [(str "project", JObj [])] in
  let r := reply 200 (stringify data) in
  let w := world [Responds r] in
  (truthy (default JUndefined (workspaceState w !! ephemeralProjectId)) = false /\
   authenticated w key /\ remote w = [Responds r] /\ res_ok r = true /\
   JSON_parse (res_text r) = Some data /\
   getProp data (str "project") = Ok (JObj []) /\
   getProp (JObj []) (str "id") = Ok JUndefined) /\
  (getEphemeralProject w).1 = Ok JUndefined /\
  workspaceState (getEphemeralProject w).2 !! ephemeralProjectId = None.
Proof.
  intros data r w.
  assert (truthy (default JUndefined (workspaceState w !! ephemeralProjectId)) = false)
    as Hnone by (vm_compute; reflexivity).
  assert (JSON_parse (res_text r) = Some data) as Hdata by (vm_compute; reflexivity).
  assert (getProp data (str "project") = Ok (JObj [])) as Hproject
    by (vm_compute; reflexivity).
  assert (getProp (JObj []) (str "id") = Ok JUndefined) as Hid by (vm_compute; reflexivity).
  split; [evaluated|].
  pose proof (project_without_id_is_not_refused w key r [] data (JObj [])
                Hnone (world_authenticated _) eq_refl eq_refl Hdata Hproject Hid) as Hthm.
  exact Hthm.
Defined.

Lemma upload_is_one_batch_witness :
  let w := worldWithFile [Responds (reply 200 (str "{}"))] in
  let projectId := JStr (str "p1") in
  authenticated w key /\
  requests (log (uploadWorkspaceFiles projectId w).2) =
  requests (log w) ++
  match rfxFiles w with
  | [] => []
  | _ :: _ => [baseUrl w ++ str "/api/v1/projects/" ++ toString projectId ++
               str "/files/upload-batch"]
  end.
Proof.
  intros w projectId.
  assert (authenticated w key) as Hk by (split; [by vm_compute | discriminate]).
  split; [done|].
  pose proof (upload_is_one_batch projectId w key Hk) as Hthm. exact Hthm.
Defined.

Lemma downloadArtifacts_without_folder_witness :
  let w := worldWithoutFolder [Responds (reply 200 (stringify twoArtifacts))] in
  let run := downloadArtifacts session w in
  workspaceFolders w = [] /\
  run.1 = Ok 0 /\
  requests (log run.2) = requests (log w) /\
  remote run.2 = remote w /\
  fileSystemCalls (log run.2) = fileSystemCalls (log w).
Proof.
  intros w run. split; [reflexivity|].
  pose proof (downloadArtifacts_without_folder session w eq_refl) as Hthm. exact Hthm.
Defined.


Lemma monitorSession_needs_open_stream_witness :
  let out := loggedOut [] in
  let r := reply 503 (str "unavailable") in
  let w := world [Responds r] in
  (unauthenticated out /\
   monitorSession session (mkToken None) out =
   (Throw (Error (str "Not authenticated")), out)) /\
  ((authenticated w key /\ remote w = [Responds r] /\
    (res_ok r = false \/ res_body r = None)) /\
   monitorSession session (mkToken None) w =
   (Throw (Error (str "Failed to connect to SSE stream")), connected session key w)).
Proof.
  intros out r w.
  assert (unauthenticated out) as Hout by (left; vm_compute; reflexivity).
  assert (res_ok r = false \/ res_body r = None) as Hclosed by (by right).
  split.
  - split; [done|].
    pose proof (proj1 (monitorSession_needs_open_stream session (mkToken None) out) Hout)
      as Hthm.
    exact Hthm.
  - split; [evaluated|].
    pose proof (proj2 (monitorSession_needs_open_stream session (mkToken None) w)
                  key r [] (world_authenticated _) eq_refl Hclosed) as Hthm.
    exact Hthm.
Defined.

Lemma read_failure_propagates_witness :
  let stream := [frame (event "content" "partial")] in
  let e := TypeError (str "terminated") in
  let r := brokenSse stream e in
  let body := mkStream (bytes <$> stream) (Broken e) in
  let w := world [Responds r] in
  (authenticated w key /\ remote w = [Responds r] /\ res_ok r = true /\
   res_body r = Some body /\ ending body = Broken e /\
   Forall (fun part => decodeFrame part <> Some Complete)
          (framesOf TextDecoder_new [] (chunks body))) /\
  (monitorSession session (mkToken None) w).1 = Throw e /\
  chatMessages (log (monitorSession session (mkToken None) w).2) = chatMessages (log w).
Proof.
  intros stream e r body w.
  assert (Forall (fun part => decodeFrame part <> Some Complete)
                 (framesOf TextDecoder_new [] (chunks body))) as Hframes.
  { replace (framesOf TextDecoder_new [] (chunks body))
      with [part (event "content" "partial")] by (vm_compute; reflexivity).
    repeat constructor. vm_compute. discriminate. }
  split; [evaluated|].
  pose proof (read_failure_propagates session w key r [] body e
                (world_authenticated _) eq_refl eq_refl eq_refl eq_refl Hframes) as Hthm.
  exact Hthm.
Defined.

Lemma cancellation_seen_between_reads_witness :
  let first := [bytes (frame (event "content" "partial"))] in
  let later := [bytes (frame completeEvent)] in
  let body := mkStream (first ++ later) Closed in
  let r := mkResponse 200 [] (Some body) in
  let w := world [Responds r; Responds (reply 200 (str "{}"))] in
  (authenticated w key /\ remote w = [Responds r; Responds (reply 200 (str "{}"))] /\
   res_ok r = true /\ res_body r = Some body /\ chunks body = first ++ later /\
   Forall (fun part => decodeFrame part <> Some Complete)
          (framesOf TextDecoder_new [] first)) /\
  monitorSession session (mkToken (Some (length first))) w =
  match apiFetch (str "/api/v1/agent/stop") (str "POST")
          (Some (JSON_stringify (JObj [(str "sessionId", session)])))
          (set_reads (reads w + length first)%nat
             (handleParts (framesOf TextDecoder_new [] first) []
                          (connected session key w)).2) with
  | (Ok _, w') => (Throw (Error (str "User cancelled")), w')
  | (Throw e, w') => (Throw e, w')
  end.
Proof.
  intros first later body r w.
  assert (Forall (fun part => decodeFrame part <> Some Complete)
                 (framesOf TextDecoder_new [] first)) as Hframes.
  { replace (framesOf TextDecoder_new [] first)
      with [part (event "content" "partial")] by (vm_compute; reflexivity).
    repeat constructor. vm_compute. discriminate. }
  split; [evaluated|].
  pose proof (cancellation_seen_between_reads session w key r
                [Responds (reply 200 (str "{}"))] body first later
                (world_authenticated _) eq_refl eq_refl eq_refl eq_refl Hframes) as Hthm.
  exact Hthm.
Defined.


Lemma unknown_event_type_is_ignored_witness :
  let members := [(str "type", JStr (str "ping")); (str "message", JStr (str "x"))] in
  let w := world [] in
  (JSON_parse (readLines (part (event "ping" "x"))).2 = Some (JObj members) /\
   member (str "type") members = JStr (str "ping") /\
   str "ping" ∉ [str "progress"; str "complete"; str "content"; str "error"]) /\
  handlePart (part (event "ping" "x")) (str "so far") w = (Ok (Continue (str "so far")), w).
Proof.
  intros members w.
  assert (JSON_parse (readLines (part (event "ping" "x"))).2 = Some (JObj members))
    as Hparse by (vm_compute; reflexivity).
  assert (member (str "type") members = JStr (str "ping")) as Htype
    by (vm_compute; reflexivity).
  assert (str "ping" ∉ [str "progress"; str "complete"; str "content"; str "error"])
    as Hunknown by (apply (bool_decide_unpack _); vm_compute; reflexivity).
  split; [done|].
  pose proof (unknown_event_type_is_ignored (part (event "ping" "x")) (str "so far") w
                members (str "ping") Hparse Htype Hunknown) as Hthm.
  exact Hthm.
Defined.

Lemma monitor_failure_is_reported_witness :
  let w := world [Responds (reply 200 (stringify created));
                  Responds (reply 200 (stringify dispatched));
                  Responds (reply 503 (str "unavailable"))] in
  let token := mkToken None in
  let w1 := (dispatchSession (str "blink") (str "chat") w).2 in
  let w2 := (monitorSession session token w1).2 in
  let e := Error (str "Failed to connect to SSE stream") in
  (dispatchSession (str "blink") (str "chat") w = (Ok (JStr (str "p1"), session), w1) /\
   monitorSession session token w1 = (Throw e, w2) /\
   exn_message e <> str "User cancelled") /\
  runSession (str "blink") (str "chat") token w =
  (Ok (),
   set_log (log w2 ++
            [AppendLine (str "ERROR: " ++ exn_message e);
             ShowErrorMessage (str "Session failed: " ++ exn_message e) [];
             AddMessage (str "assistant") (str "Error: " ++ exn_message e)]) w2).
Proof.
  intros w token w1 w2 e.
  assert (dispatchSession (str "blink") (str "chat") w = (Ok (JStr (str "p1"), session), w1))
    as Hdispatch by (vm_compute; reflexivity).
  assert (monitorSession session token w1 = (Throw e, w2)) as Hmonitor
    by (vm_compute; reflexivity).
  assert (exn_message e <> str "User cancelled") as Hmessage by (vm_compute; discriminate).
  split; [done|].
  pose proof (monitor_failure_is_reported (str "blink") (str "chat") token w
                (JStr (str "p1")) session w1 e w2 Hdispatch Hmonitor Hmessage) as Hthm.
  exact Hthm.
Defined.

Lemma no_artifacts_no_cleanup_witness :
  let data := JObj [(str "artifacts", JArr [])] in
  let r := reply 200 (stringify data) in
  let w := worldWithProject [Responds r] in
  let run := collectArtifacts (JStr (str "p1")) session w in
  (authenticated w key /\ workspaceFolders w = [workspace] /\ remote w = [Responds r] /\
   res_ok r = true /\ JSON_parse (res_text r) = Some data /\
   getProp data (str "artifacts") = Ok (JArr []) /\
   negb (truthy (JArr [])) || lengthIsZero (JArr []) = true) /\
  run.1 = Ok () /\
  workspaceState run.2 = workspaceState w /\
  requests (log run.2) =
  requests (log w) ++
  [baseUrl w ++ str "/api/v1/sessions/" ++ toString session ++ str "/artifacts"].
Proof.
  intros data r w run.
  assert (authenticated w key) as Hk by (split; [by vm_compute | discriminate]).
  assert (JSON_parse (res_text r) = Some data) as Hdata by (vm_compute; reflexivity).
  assert (getProp data (str "artifacts") = Ok (JArr [])) as Hartifacts
    by (vm_compute; reflexivity).
  assert (negb (truthy (JArr [])) || lengthIsZero (JArr []) = true) as Hempty
    by (vm_compute; reflexivity).
  split; [evaluated|].
  pose proof (no_artifacts_no_cleanup (JStr (str "p1")) session w key r [] workspace []
                data (JArr []) Hk eq_refl eq_refl eq_refl Hdata Hartifacts Hempty) as Hthm.
  exact Hthm.
Defined.

Lemma abandoned_session_does_nothing_witness :
  let w := set_answers [Typed (str "blink"); Dismissed] (world []) in
  let run := startAISession (mkToken None) w in
  (typedAnswer w = None \/ modePicked w = None) /\
  run.1 = Ok () /\
  chatMessages (log run.2) = chatMessages (log w) /\
  requests (log run.2) = requests (log w) /\
  workspaceState run.2 = workspaceState w.
Proof.
  intros w run.
  assert (typedAnswer w = None \/ modePicked w = None) as Habandoned by (by right).
  split; [done|].
  pose proof (abandoned_session_does_nothing (mkToken None) w Habandoned) as Hthm.
  exact Hthm.
Defined.

Lemma new_session_forgets_project_witness :
  let w := worldWithProject [] in
  let w' := (newSessionCommand w).2 in
  authenticated w key /\
  (newSessionCommand w).1 = Ok () /\
  workspaceState w' !! ephemeralProjectId = None /\
  workspaceState w' !! currentSessionId = None /\
  requests (log w') = requests (log w) /\
  requests (log (getEphemeralProject w').2) =
  requests (log w) ++ [baseUrl w ++ str "/api/v1/projects/ephemeral"].
Proof.
  intros w w'.
  assert (authenticated w key) as Hk by (split; [by vm_compute | discriminate]).
  split; [done|].
  pose proof (new_session_forgets_project w key Hk) as Hthm. exact Hthm.
Defined.

Lemma categories_overlap_only_on_elf_witness :
  let files := [str "main.rfx"; str "board.json"; str "output/fw.elf"; str "output/fw.uf2"] in
  let c := categorizeFiles id files in
  (In (str "main.rfx") (reflex c) /\
   ~ In (str "main.rfx") (config c) /\ ~ In (str "main.rfx") (binary c)) /\
  (In (str "board.json") (config c) /\ ~ In (str "board.json") (binary c)) /\
  ((In (str "output/fw.elf") (output c) /\ In (str "output/fw.elf") (binary c)) /\
   endsWith (id (str "output/fw.elf")) (str ".elf") = true).
Proof.
  intros files c.
  assert (In (str "main.rfx") (reflex c)) as Hreflex by (vm_compute; tauto).
  assert (In (str "board.json") (config c)) as Hconfig by (vm_compute; tauto).
  assert (In (str "output/fw.elf") (output c)) as Houtput by (vm_compute; tauto).
  assert (In (str "output/fw.elf") (binary c)) as Hbinary by (vm_compute; tauto).
  pose proof (categories_overlap_only_on_elf id files) as Hthm.
  destruct Hthm as (Hthm1 & Hthm2 & Hthm3).
  split; [split; [done | exact (Hthm1 _ Hreflex)]|].
  split; [split; [done | exact (Hthm2 _ Hconfig)]|].
  split; [done | exact (Hthm3 _ Houtput Hbinary)].
Defined.

Lemma elf_under_output_is_listed_twice_witness :
  let files := [str "main.rfx"; str "output/fw.elf"] in
  let f := str "output/fw.elf" in
  let c := categorizeFiles id files in
  (In f files /\ endsWith (id f) (str ".elf") = true /\
   includes (id f) (str "output/") = true) /\
  In f (output c) /\ In f (binary c).
Proof.
  intros files f c.
  assert (In f files) as Hf by (vm_compute; tauto).
  assert (endsWith (id f) (str ".elf") = true) as Helf by (vm_compute; reflexivity).
  assert (includes (id f) (str "output/") = true) as Houtput by (vm_compute; reflexivity).
  split; [done|].
  pose proof (elf_under_output_is_listed_twice id files f Hf Helf Houtput) as Hthm.
  exact Hthm.
Defined.

Lemma streamSse_posts_every_frame_witness :
  let stream := [frame (event "content" "Hello") ++ str "data: {";
                 drop 7 (frame completeEvent) ++ frame (event "progress" "after")] in
  let w := world [Responds (sse stream)] in
  (decodesInPieces /\ authenticated w key /\ remote w = [Responds (sse stream)] /\
   res_ok (sse stream) = true /\ res_body (sse stream) = Some (streamOf stream)) /\
  streamSse session [] w =
  (atEnd (ending (streamOf stream)),
   [] ++ omap posting (framesOf TextDecoder_new [] [concat (chunks (streamOf stream))]),
   set_reads (reads w + S (length (chunks (streamOf stream)))) (connected session key w)).
Proof.
  intros stream w.
  split; [split; [exact ascii_decodesInPieces | evaluated]|].
  pose proof (streamSse_posts_every_frame session [] w key (sse stream) [] (streamOf stream)
                ascii_decodesInPieces (world_authenticated _) eq_refl eq_refl eq_refl)
    as Hthm.
  exact Hthm.
Defined.

Lemma failed_download_keeps_panel_stream_open_witness :
  let stream := [frame completeEvent ++ frame (event "content" "later")] in
  let failure := Responds (reply 500 (str "unavailable")) in
  let w := world [Responds (sse stream); failure] in
  let w1 := connected session key w in
  let e := RemoteError 500 (str "unavailable") in
  let after := [part (event "content" "later")] in
  (authenticated w key /\ remote w = [Responds (sse stream); failure] /\
   res_ok (sse stream) = true /\ res_body (sse stream) = Some (streamOf stream) /\
   framesOf TextDecoder_new [] (chunks (streamOf stream)) =
     [] ++ part completeEvent :: after /\
   panelFrames session [] [] w1 = (Ok PanelContinue, [], w1) /\
   JSON_parse (dataOf (part completeEvent)) = Some completeEvent /\
   getProp completeEvent (str "type") = Ok (JStr (str "complete")) /\
   isString (JStr (str "complete")) (str "complete") = true /\
   (downloadArtifacts session w1).1 = Throw e) /\
  exists n,
    streamSSE session [] w =
    let '(r', posted', w') :=
      panelFrames session after ([] ++ [panelMessage completeEvent])
                  (downloadArtifacts session w1).2 in
    (afterPanelFrames (ending (streamOf stream)) r', posted', set_reads n w').
Proof.
  intros stream failure w w1 e after.
  assert (framesOf TextDecoder_new [] (chunks (streamOf stream)) =
          [] ++ part completeEvent :: after) as Hframes by (vm_compute; reflexivity).
  assert (JSON_parse (dataOf (part completeEvent)) = Some completeEvent) as Hparsed
    by (vm_compute; reflexivity).
  assert (getProp completeEvent (str "type") = Ok (JStr (str "complete"))) as Htype
    by (vm_compute; reflexivity).
  assert (isString (JStr (str "complete")) (str "complete") = true) as Hcomplete
    by (vm_compute; reflexivity).
  assert ((downloadArtifacts session w1).1 = Throw e) as Hfailed
    by (vm_compute; reflexivity).
  split; [evaluated|].
  pose proof (failed_download_keeps_panel_stream_open session [] w key (sse stream)
                [failure] (streamOf stream) [] (part completeEvent) after
                completeEvent (JStr (str "complete")) [] w1 e
                (world_authenticated _) eq_refl eq_refl eq_refl Hframes eq_refl
                Hparsed Htype Hcomplete Hfailed) as Hthm.
  exact Hthm.
Defined.

End OnFurtherExamples.
